(* ===== verification/_CoqProject ===== *)
-Q . S2P
Prelude.v
PyFloat.v
Deque.v
Trend.v
Reading.v
AgentBrain.v
BrainSpec.v
Session.v
Hardware.v
Database.v
ControlLoop.v
