(* ===== verification/Prelude.v ===== *)
(** * A verification development for the Agentic Diagnostic System

    The repository (src/) is a small Python monitoring application:

    - [src/agent_brain.py], class [AgentBrain]: the decision engine.  It is a
      two-phase state machine.  In phase ["CALIBRATING"] every reading's
      temperature is appended to [calibration_buffer]; when the buffer holds
      [calibration_limit] (20) samples, [baseline_temp] becomes their
      [statistics.mean], [dynamic_threshold] becomes [baseline_temp * 1.2]
      and the phase becomes ["MONITORING"].  In ["MONITORING"] every
      temperature is pushed on [temp_history], a [deque(maxlen=20)], and
      three rules run in order: dynamic deviation (WARNING, [CHECK_LOAD]),
      hard limit [HARD_LIMIT_TEMP = 80.0] (FAULT, three actions, overriding
      the first rule) and rising trend (the last five temperatures strictly
      increasing and the reading above [baseline_temp + 5]: only a NORMAL
      result is upgraded).
    - [src/hardware_interface.py], class [HardwareInterface]: the reading
      source.  It reads JSON lines from a serial port or, failing that,
      produces a reading from a small heating/cooling simulation; it also
      sends the engine's commands to the port.
    - [src/database_manager.py]: two SQLite tables ([readings], [events])
      with AUTOINCREMENT ids, a reset that also clears [sqlite_sequence],
      and the two "most recent rows" queries the dashboard uses.
    - [src/main.py]: a Streamlit page whose control loop calls, once per
      tick, [hw.get_data], [brain.analyze], [hw.send_command] for every
      action, [db.log_data], and [db.log_event] for WARNING and FAULT
      decisions whose reason differs from the last logged event.

    ** Layout of the development (one file per component, in this order)

    - [Prelude] (this file): the [diag_scope] notations, the Python suffix
      slice [xs[-k:]] as [lastn], its lemmas, the [diag] hint databases
      and the development's tactics.
    - [PyFloat]: Python floats as finite rationals extended with [inf],
      [-inf] and [nan] (what [json.loads] accepts); CPython's [+],
      scaling, [<], [>], [statistics.mean] (with [StatisticsError]) and
      [round] (half to even); the equivalence [feq] with its [Proper]
      instances.
    - [Deque]: [collections.deque(maxlen=n)] ([Module Deque]), behind the
      interface [BoundedFifo]/[BoundedFifoLaws] (type classes) that its
      clients' lemmas are proved against.
    - [Trend]: the slice [[-5:]] and the [all(recent[i] < recent[i+1] ...)]
      loop, equivalent to "strictly increasing" ([StronglySorted flt]).
    - [Reading]: the reading dict (keys possibly absent) and the decision
      dict; the reason f-strings as a tagged union with the equality of
      their rendered text ([reason_eqb], [:.1f] for the threshold).
    - [AgentBrain] ([Module AgentBrain]): the engine's attributes as a
      record, [analyze] split as in the source ([calibrate], the three
      rules, [monitor]), its outcome (a result or a raised exception with
      the state mutated so far), the runs and the reachable states.
    - [BrainSpec]: the declarative priority table [classify] that the
      sequential rules refine, and the rule-level theorems.
    - [Session]: runs of [analyze] over a whole session, split into the
      calibration prefix and the monitoring suffix.
    - [Hardware] ([Module Hardware]): [HardwareInterface]; the port's
      behaviour (opens or not, what a read yields) and the two
      [random.uniform] draws are inputs of the operations that meet them.
    - [Database] ([Module Database]): the database file as two optional
      tables of id-keyed rows and [sqlite_sequence] as a [gmap]; every
      function of database_manager.py, failing with [OperationalError] on
      a missing table.
    - [ControlLoop] ([Module ControlLoop]): the Streamlit session state
      ([hw], [brain], [running]) with the database file; the page setup,
      one tick of the [while] loop (with the exceptions that end it), the
      loop, and as a step relation the ticks while [running], the three
      sidebar buttons and the reruns (each runs [db.init_db()] again),
      with its reachable sessions.  A rerun requested while the loop runs
      takes effect at the next Streamlit call, after the tick's logging,
      so a tick is atomic.

    ** What the theorems show

    - Engine (AgentBrain, BrainSpec, Session): on the modelled readings
      every call of [analyze] returns (no [StatisticsError]); exactly the first
      [calibration_limit] calls return LEARNING; the baseline is the mean
      of exactly those temperatures and the threshold [1.2] times it;
      MONITORING is absorbing; on every reachable monitoring state the
      three overwriting rules compute the priority table (refinement),
      hence hard-limit precedence (above 80: FAULT with
      [[EMERGENCY_STOP; ALARM_ON; FAN_MAX]]), the deviation and trend
      rules branch by branch, and "no action iff NORMAL or LEARNING".
    - History: at most 20 items, and after a session exactly the last 20
      monitored temperatures in order (FIFO), by refinement to [lastn].
    - Hardware: the simulated temperature stays in (44.2, 96.5); with the
      fault injected every reading from the 34th call on is above 80
      (heating 1.5 per call from above 44.2 reaches 95 within 34 calls;
      noise and rounding take off at most 0.305); with the fault cleared
      64 calls bring it into (44.2, 45.5) (cooling 0.8 per call from below
      96.5).
    - Database: every producible database has increasing ids below the
      AUTOINCREMENT counter; the recent-row queries return the last rows
      (newest first, or oldest first after the reversal); [log_event] then
      [get_recent_events(1)] returns the new row; [clear_db] restarts ids
      at 1.
    - Loop: the loop's decisions are those of [analyze] on the readings
      of its ticks (refinement); calibration ticks send nothing and log
      no event; every completed tick logs its reading with a fresh id;
      commands are sent in the decision's order; every WARNING or FAULT
      is the newest event after its tick; no two consecutive events
      repeat a message (an invariant of all reachable sessions); after
      Inject Overheat every tick from the 34th on sends EMERGENCY_STOP,
      and after Stop Overheat every tick from the 64th on is back to
      "System Stable" (for a baseline of at least 41).
    - Findings: a single [nan] calibration sample disables the soft rules
      for the session; on an open port, a tick without a JSON line falls
      back to the simulator, whose injected overheat sends real
      EMERGENCY_STOP commands; a JSON line without a key ends the loop
      with [KeyError] after the commands went out; the de-duplication
      compares with the newest logged event, so a recurring episode with
      the same message is not recorded; a missing temperature is read as
      [0]; the calibration buffer is never discarded.  Read off the
      source, outside the model: a JSON [null] or string temperature
      during calibration stays in the buffer, so every call from the
      limit on raises [TypeError] in [statistics.mean].

    ** Numbers, bounds and fuel

    Floats are exact rationals ([Q]) plus the three IEEE special values;
    the rounding of finite float arithmetic is not modelled (the constants
    [1.2], [0.8], [1.5] are the exact decimals), [round(x, 2)] and [:.1f]
    are modelled exactly.  No fuel: every function is structurally
    recursive, the loop runs over its finite list of tick inputs.  The
    bounds of the liveness theorems (34 ticks, 64 ticks) are computed from
    the band (44.2, 96.5) the reachable temperatures stay in: heating
    gains 1.5 per tick up to 95, cooling loses 0.8 per tick down to the
    resting band (44.2, 45.5).  Witnesses run the model
    by [vm_compute] on concrete sessions (a 20-reading calibration at 40
    degrees, then overheat).

    Not modelled: the Streamlit user interface (metrics, charts and the
    dataframe of events: pure output), the [print] calls and
    [time.sleep], the wall-clock time (an input), pandas' data frames
    beyond the rows they hold, JSON values that are not objects or
    whose values are not numbers (the [TypeError] and [AttributeError]
    paths of [analyze]), and a failing [connection.write] in
    [send_command] (taken to succeed).

    Plan for later work: readings whose JSON values are integers,
    strings or nested values (a [TypeError] path of the loop); the
    timestamps' format. *)

From Stdlib Require Import List Arith Lia.
Import ListNotations.

Declare Scope diag_scope.
Delimit Scope diag_scope with diag.

(** ** Python's suffix slice [xs[-k:]] *)

(** [xs[-k:]] starts at index [max 0 (len xs - k)]; on [nat] the
    truncated subtraction is that maximum. *)
Definition lastn {A} (k : nat) (xs : list A) : list A :=
  skipn (length xs - k) xs.

Notation "xs '.[-' k ':]'" := (lastn k xs)
  (at level 1, k at level 200, format "xs .[- k :]") : diag_scope.
Open Scope diag_scope.

Create HintDb diag.
Create Rewrite HintDb diag_len.
Create Rewrite HintDb diag_rw.

Section Lastn.
Context {A : Type}.
Implicit Types (xs ys : list A) (x : A).

Lemma length_lastn k xs : length (xs.[-k:]) = Nat.min k (length xs).
Proof. unfold lastn. rewrite length_skipn. lia. Qed.

Lemma lastn_all k xs : length xs <= k -> xs.[-k:] = xs.
Proof. intros H. unfold lastn. now replace (length xs - k) with 0 by lia. Qed.

Lemma lastn_zero xs : xs.[-0:] = [].
Proof. unfold lastn. rewrite Nat.sub_0_r. apply skipn_all. Qed.

(** Dropping the head of a list that is one too long keeps its last [k]. *)
Lemma lastn_cons_full k x xs :
  length xs = k -> (x :: xs).[-k:] = xs.
Proof.
  intros H. unfold lastn. simpl length.
  now replace (S (length xs) - k) with 1 by lia.
Qed.

Lemma lastn_app_le k xs ys :
  length ys <= k -> (xs ++ ys).[-k:] = xs.[-(k - length ys):] ++ ys.
Proof.
  intros H. unfold lastn. rewrite length_app, skipn_app.
  replace (length xs + length ys - k - length xs) with 0 by lia.
  f_equal. f_equal. lia.
Qed.

Lemma lastn_app_ge k xs ys :
  k <= length ys -> (xs ++ ys).[-k:] = ys.[-k:].
Proof.
  intros H. unfold lastn. rewrite length_app, skipn_app.
  rewrite skipn_all2 by lia. simpl. f_equal. lia.
Qed.

Lemma lastn_app_single k xs x :
  0 < k -> (xs ++ [x]).[-k:] = xs.[-(k - 1):] ++ [x].
Proof. intros H. apply lastn_app_le. simpl. lia. Qed.

Lemma lastn_lastn k j xs : j <= k -> (xs.[-k:]).[-j:] = xs.[-j:].
Proof.
  intros H. unfold lastn. rewrite length_skipn, skipn_skipn. f_equal. lia.
Qed.

(** Appending and keeping the last [k] commutes with keeping the last
    [k] first: trimming early loses nothing that would survive. *)
Lemma lastn_app_lastn k xs ys :
  (xs.[-k:] ++ ys).[-k:] = (xs ++ ys).[-k:].
Proof.
  destruct (Nat.le_gt_cases k (length ys)) as [Hge | Hlt].
  - now rewrite !lastn_app_ge.
  - rewrite !lastn_app_le by lia. f_equal. apply lastn_lastn. lia.
Qed.

Lemma lastn_length_self xs : xs.[-length xs:] = xs.
Proof. now apply lastn_all. Qed.
End Lastn.

#[export] Hint Rewrite @length_lastn @length_app @length_skipn @length_map
  @length_cons @length_nil : diag_len.

(** [len] normalises list lengths and closes the arithmetic. *)
Ltac len := autorewrite with diag_len in *; simpl in *; lia.

(** Lemmas on [option] shared by the components. *)
Lemma option_map_some {A B} (f : A -> B) (o : option A) (b : B) :
  option_map f o = Some b -> exists a, o = Some a /\ f a = b.
Proof. destruct o; simpl; intros H; [inversion H; eauto | discriminate]. Qed.

#[export] Hint Resolve lastn_all lastn_zero : diag.
