(* ===== verification/PyFloat.v ===== *)
(** Python floats as the engine meets them: finite values (exact rationals),
    [inf], [-inf] and [nan], which [json.loads] produces from the
    serial line's [Infinity], [-Infinity] and [NaN].  CPython's [<] and [>]
    are false as soon as one side is [nan]; [+] follows IEEE 754 on the
    special values.  [statistics.mean] (called at agent_brain.py:43) raises
    [StatisticsError] on an empty sequence and otherwise divides the sum by
    the length; with non-finite items the sum is the IEEE sum of those
    items.  [round_half_even] is the rounding rule of Python 3's [round]
    and of the [:.1f] format on the exact value.  [feq] identifies equal numbers; every operation is [Proper]
    for it. *)

From Stdlib Require Import QArith Qround Lqa List Arith Lia ZArith Morphisms Setoid.
From S2P Require Import Prelude.
Import ListNotations.

Inductive pyfloat : Type :=
| Fin (q : Q)
| PInf
| NInf
| NaN.

(** Boolean strict order on [Q]. *)
Definition Qltb (x y : Q) : bool := negb (Qle_bool y x).

(** Python's [a < b] on floats. *)
Definition flt (a b : pyfloat) : bool :=
  match a, b with
  | Fin x, Fin y => Qltb x y
  | Fin _, PInf | NInf, Fin _ | NInf, PInf => true
  | _, _ => false
  end.

(** Python's [a > b]. *)
Definition fgt (a b : pyfloat) : bool := flt b a.

(** Round half to even, the rule of Python 3's [round]. *)
Definition round_half_even (y : Q) : Z :=
  let f := Qfloor y in
  let frac := y - inject_Z f in
  if Qltb frac (1 # 2) then f
  else if Qltb (1 # 2) frac then (f + 1)%Z
  else if Z.even f then f else (f + 1)%Z.

(** Python's [a + b] (IEEE 754 on the special values). *)
Definition fadd (a b : pyfloat) : pyfloat :=
  match a, b with
  | NaN, _ | _, NaN => NaN
  | PInf, NInf | NInf, PInf => NaN
  | PInf, _ | _, PInf => PInf
  | NInf, _ | _, NInf => NInf
  | Fin x, Fin y => Fin (x + y)
  end.

(** Multiplication by a positive constant, as in [baseline_temp * 1.2]
    and the division by the sample count in [statistics.mean]:
    infinities keep their sign. *)
Definition fscale (c : Q) (a : pyfloat) : pyfloat :=
  match a with
  | Fin x => Fin (c * x)
  | s => s
  end.

Definition is_finite (a : pyfloat) : bool :=
  match a with Fin _ => true | _ => false end.

Definition fsum (xs : list pyfloat) : pyfloat := fold_left fadd xs (Fin 0).

Inductive py_error : Type :=
| StatisticsError.

(** [statistics.mean(data)]: [StatisticsError] when empty. *)
Definition mean (xs : list pyfloat) : py_error + pyfloat :=
  match xs with
  | [] => inl StatisticsError
  | _ => inr (fscale (1 / inject_Z (Z.of_nat (length xs))) (fsum xs))
  end.

(** Finite mean of rationals, the reference for [mean]. *)
Definition Qmean (qs : list Q) : Q :=
  fold_left Qplus qs 0 / inject_Z (Z.of_nat (length qs)).

(** ** Equality as numbers *)

Definition feq (a b : pyfloat) : Prop :=
  match a, b with
  | Fin x, Fin y => x == y
  | PInf, PInf | NInf, NInf | NaN, NaN => True
  | _, _ => False
  end.

Infix "=f=" := feq (at level 70, no associativity) : diag_scope.

Lemma Qltb_spec x y : reflect (x < y) (Qltb x y).
Proof.
  unfold Qltb. destruct (Qle_bool y x) eqn:E; constructor.
  - apply Qle_bool_iff in E. lra.
  - apply Qnot_le_lt. intros H. apply Qle_bool_iff in H. congruence.
Qed.

Lemma Qltb_true x y : Qltb x y = true <-> x < y.
Proof. destruct (Qltb_spec x y); split; intros; easy. Qed.

Lemma Qltb_false x y : Qltb x y = false <-> y <= x.
Proof.
  destruct (Qltb_spec x y); split; intros; try easy; [lra | now apply Qnot_lt_le].
Qed.

#[export] Instance feq_equiv : Equivalence feq.
Proof.
  split.
  - intros []; simpl; easy.
  - intros [] []; simpl; easy.
  - intros [x| | |] [y| | |] [z| | |]; simpl; try easy.
    intros H1 H2. now rewrite H1.
Qed.

#[export] Instance flt_proper : Proper (feq ==> feq ==> eq) flt.
Proof.
  intros [x| | |] [x'| | |] Hx [y| | |] [y'| | |] Hy; simpl in *; try easy.
  destruct (Qltb_spec x y), (Qltb_spec x' y'); auto; exfalso.
  - rewrite Hx, Hy in q. easy.
  - rewrite <- Hx, <- Hy in q. easy.
Qed.

#[export] Instance fgt_proper : Proper (feq ==> feq ==> eq) fgt.
Proof. intros a a' Ha b b' Hb. unfold fgt. now rewrite Ha, Hb. Qed.

#[export] Instance fadd_proper : Proper (feq ==> feq ==> feq) fadd.
Proof.
  intros [x| | |] [x'| | |] Hx [y| | |] [y'| | |] Hy; simpl in *; try easy.
  now rewrite Hx, Hy.
Qed.

#[export] Instance fscale_proper : Proper (Qeq ==> feq ==> feq) fscale.
Proof.
  intros c c' Hc [x| | |] [x'| | |] Hx; simpl in *; try easy.
  now rewrite Hc, Hx.
Qed.

(** ** Facts on the operations *)

Lemma flt_nan_l a : flt NaN a = false.
Proof. reflexivity. Qed.

Lemma flt_nan_r a : flt a NaN = false.
Proof. now destruct a. Qed.

Lemma flt_Fin x y : flt (Fin x) (Fin y) = true <-> x < y.
Proof. apply Qltb_true. Qed.

(** [<] on floats is a strict order: transitive and irreflexive. *)
Lemma flt_trans a b c : flt a b = true -> flt b c = true -> flt a c = true.
Proof.
  destruct a as [x| | |], b as [y| | |], c as [z| | |]; simpl; try easy.
  rewrite !Qltb_true. lra.
Qed.

Lemma flt_irrefl a : flt a a = false.
Proof. destruct a as [x| | |]; simpl; try easy. apply Qltb_false. lra. Qed.

Lemma fadd_nan_l a : fadd NaN a = NaN.
Proof. reflexivity. Qed.

Lemma fadd_nan_r a : fadd a NaN = NaN.
Proof. now destruct a. Qed.

Lemma fold_fadd_nan xs : fold_left fadd xs NaN = NaN.
Proof. induction xs; simpl; auto. Qed.

(** Once a [nan] enters the running sum, it stays. *)
Lemma fsum_nan xs : In NaN xs -> fsum xs = NaN.
Proof.
  unfold fsum. generalize (Fin 0).
  induction xs as [|x xs IH]; simpl; [easy|].
  intros acc [-> | Hin].
  - rewrite fadd_nan_r. apply fold_fadd_nan.
  - apply IH, Hin.
Qed.

Lemma fold_fadd_fin (qs : list Q) (acc : Q) :
  fold_left fadd (map Fin qs) (Fin acc) = Fin (fold_left Qplus qs acc).
Proof. revert acc. induction qs; simpl; auto. Qed.

(** On finite samples [mean] is the rational mean. *)
Lemma mean_fin (qs : list Q) :
  qs <> [] -> exists m, mean (map Fin qs) = inr m /\ m =f= Fin (Qmean qs).
Proof.
  destruct qs as [|q qs]; [easy|]. intros _. unfold mean, fsum.
  change (Fin q :: map Fin qs) with (map Fin (q :: qs)).
  rewrite length_map, fold_fadd_fin. eexists. split; [reflexivity|].
  cbn [feq fscale map]. unfold Qmean, Qdiv. ring.
Qed.

Lemma mean_ok xs : xs <> [] -> exists m, mean xs = inr m.
Proof. destruct xs; [easy|]. intros _. eexists. reflexivity. Qed.

Lemma mean_nan xs : In NaN xs -> mean xs = inr NaN.
Proof.
  destruct xs as [|x xs]; [easy|]. intros H. unfold mean.
  now rewrite fsum_nan.
Qed.

#[export] Hint Resolve flt_trans : diag.
#[export] Hint Rewrite flt_nan_l flt_nan_r fadd_nan_l fadd_nan_r : diag_rw.
