(* ===== verification/Deque.v ===== *)
(** [collections.deque(maxlen=n)] as [AgentBrain.temp_history] uses it
    (agent_brain.py:19 and :53).  CPython's [deque.append] appends on the
    right and then, when the size exceeds [maxlen], pops one item on the
    left.  The interface [BoundedFifo] states what a client may rely on: the
    contents after a push are the last [cap] items of the old contents
    followed by the new one.  The list implementation is an instance, and
    the client theorem (after any sequence of pushes on an empty queue the
    contents are the last [cap] pushed items) is proved from the interface
    alone. *)

From Stdlib Require Import List Arith Lia.
From S2P Require Import Prelude.
Import ListNotations.

(** ** The interface *)

Class BoundedFifo (F : Type -> Type) := {
  fifo_new : forall {A}, nat -> F A;
  fifo_push : forall {A}, F A -> A -> F A;
  fifo_items : forall {A}, F A -> list A;
  fifo_cap : forall {A}, F A -> nat
}.

Class BoundedFifoLaws (F : Type -> Type) `{BoundedFifo F} := {
  fifo_new_items A n : fifo_items (@fifo_new F _ A n) = [];
  fifo_new_cap A n : fifo_cap (@fifo_new F _ A n) = n;
  fifo_push_cap A (q : F A) x : fifo_cap (fifo_push q x) = fifo_cap q;
  fifo_push_items A (q : F A) x :
    length (fifo_items q) <= fifo_cap q ->
    fifo_items (fifo_push q x) = (fifo_items q ++ [x]).[-fifo_cap q:]
}.

(** ** The list implementation *)

Module Deque.

Record deque (A : Type) := mk_deque {
  dq_items : list A;
  dq_maxlen : nat
}.
Arguments mk_deque {A}.
Arguments dq_items {A}.
Arguments dq_maxlen {A}.

(** [deque(maxlen=n)] *)
Definition deque_new {A} (maxlen : nat) : deque A := mk_deque [] maxlen.

(** [d.append(x)]: append, then trim one item on the left when
    [maxlen < len(d)]. *)
Definition append {A} (d : deque A) (x : A) : deque A :=
  let ys := dq_items d ++ [x] in
  if dq_maxlen d <? length ys
  then mk_deque (tl ys) (dq_maxlen d)
  else mk_deque ys (dq_maxlen d).

(** [list(d)] *)
Definition to_list {A} (d : deque A) : list A := dq_items d.

Definition dq_wf {A} (d : deque A) : Prop := length (dq_items d) <= dq_maxlen d.

(** [append] keeps a well-formed deque well formed: [len(d) <= maxlen]. *)
Lemma append_wf {A} (d : deque A) x : dq_wf d -> dq_wf (append d x).
Proof.
  unfold dq_wf, append. intros H. simpl.
  destruct (Nat.ltb_spec (dq_maxlen d) (length (dq_items d ++ [x]))); simpl.
  - destruct (dq_items d); simpl in *; rewrite ?length_app in *; simpl in *; lia.
  - rewrite length_app in *. simpl in *. lia.
Qed.

Lemma append_maxlen {A} (d : deque A) x : dq_maxlen (append d x) = dq_maxlen d.
Proof. unfold append. now destruct (_ <? _). Qed.

(** The pop-left of CPython's [append] computes the reference [lastn]. *)
Lemma append_items {A} (d : deque A) x :
  dq_wf d -> dq_items (append d x) = (dq_items d ++ [x]).[-dq_maxlen d:].
Proof.
  unfold dq_wf, append. intros H. rewrite length_app. simpl length.
  destruct (Nat.ltb_spec (dq_maxlen d) (length (dq_items d) + 1)); simpl.
  - destruct (dq_items d) as [|y ys] eqn:E; simpl in *.
    + replace (dq_maxlen d) with 0 by lia. now rewrite lastn_zero.
    + symmetry. apply lastn_cons_full. rewrite length_app. simpl. lia.
  - symmetry. apply lastn_all. rewrite length_app. simpl. lia.
Qed.

End Deque.

#[export] Instance deque_fifo : BoundedFifo Deque.deque := {
  fifo_new := @Deque.deque_new;
  fifo_push := @Deque.append;
  fifo_items := @Deque.dq_items;
  fifo_cap := @Deque.dq_maxlen
}.

#[export] Instance deque_fifo_laws : BoundedFifoLaws Deque.deque.
Proof.
  split; intros; simpl.
  - reflexivity.
  - reflexivity.
  - apply Deque.append_maxlen.
  - now apply Deque.append_items.
Qed.

(** ** Client theorems, proved against the interface *)

Section FifoClient.
Context {F : Type -> Type} `{BoundedFifoLaws F} {A : Type}.

Definition push_all (q : F A) (xs : list A) : F A := fold_left fifo_push xs q.

Lemma push_all_cap (q : F A) xs : fifo_cap (push_all q xs) = fifo_cap q.
Proof.
  revert q. induction xs as [|x xs IH]; intros q; simpl; [easy|].
  now rewrite IH, fifo_push_cap.
Qed.

(** From a well-formed queue, the pushes keep the last [cap] items of the
    old contents followed by the pushed items. *)
Lemma push_all_items (q : F A) xs :
  length (fifo_items q) <= fifo_cap q ->
  fifo_items (push_all q xs) = (fifo_items q ++ xs).[-fifo_cap q:].
Proof.
  revert q. induction xs as [|x xs IH]; intros q Hq; simpl.
  - rewrite app_nil_r. symmetry. now apply lastn_all.
  - rewrite IH.
    + rewrite fifo_push_cap, fifo_push_items by exact Hq.
      rewrite lastn_app_lastn, <- app_assoc. reflexivity.
    + rewrite fifo_push_items, fifo_push_cap by exact Hq. len.
Qed.

(** The client theorem: from an empty queue of capacity [n], the contents
    are the last [n] pushed items, in push order. *)
Lemma push_all_new n xs :
  fifo_items (push_all (fifo_new n) xs) = xs.[-n:].
Proof.
  rewrite push_all_items; rewrite fifo_new_items, fifo_new_cap; simpl; [easy|lia].
Qed.
End FifoClient.

