(* ===== verification/Trend.v ===== *)
(** The trend test of [AgentBrain.analyze] (agent_brain.py:70-72):
    [recent = list(self.temp_history)[-5:]] and
    [all(recent[i] < recent[i+1] for i in range(len(recent)-1))].
    The index loop is proved equal to the structural pairwise test
    [rising_chain], and both to the reference predicate "strictly
    increasing" ([StronglySorted] for Python's [<] on floats), so that a
    single non-increasing pair anywhere in the window, or a [nan], makes the
    test false. *)

From Stdlib Require Import QArith List Arith Lia Sorted Morphisms.
From S2P Require Import Prelude PyFloat.
Import ListNotations.

(** Width of the trend window ([5] in [[-5:]] and in [len(...) >= 5]). *)
Definition TREND_WINDOW : nat := 5.

(** [list(self.temp_history)[-5:]] *)
Definition trend_window (hist : list pyfloat) : list pyfloat := hist.[-TREND_WINDOW:].

(** [all(recent[i] < recent[i+1] for i in range(len(recent)-1))];
    [range] of a negative bound is empty, as [0 - 1 = 0] on [nat]. *)
Definition is_rising (recent : list pyfloat) : bool :=
  forallb (fun i => flt (nth i recent (Fin 0)) (nth (S i) recent (Fin 0)))
          (seq 0 (length recent - 1)).

(** The structural pairwise test. *)
Fixpoint rising_chain (xs : list pyfloat) : bool :=
  match xs with
  | x :: ((y :: _) as t) => flt x y && rising_chain t
  | _ => true
  end.

(** The reference: every earlier item is below every later one. *)
Definition strictly_increasing (xs : list pyfloat) : Prop :=
  StronglySorted (fun a b => flt a b = true) xs.

Lemma forallb_seq_shift (f : nat -> bool) s n :
  forallb f (seq (S s) n) = forallb (fun i => f (S i)) (seq s n).
Proof.
  revert s. induction n as [|n IH]; intros s; simpl; [easy|].
  now rewrite IH.
Qed.

Lemma is_rising_cons2 x y t :
  is_rising (x :: y :: t) = flt x y && is_rising (y :: t).
Proof.
  unfold is_rising. simpl length. rewrite ?Nat.sub_0_r.
  simpl seq. simpl forallb. f_equal.
  rewrite forallb_seq_shift. simpl. now rewrite ?Nat.sub_0_r.
Qed.

(** The index loop computes the pairwise test. *)
Lemma is_rising_chain xs : is_rising xs = rising_chain xs.
Proof.
  induction xs as [|x [|y t] IH]; try reflexivity.
  rewrite is_rising_cons2, IH. reflexivity.
Qed.

Lemma rising_chain_sorted xs :
  rising_chain xs = true <-> Sorted (fun a b => flt a b = true) xs.
Proof.
  induction xs as [|x [|y t] IH]; simpl.
  - split; auto.
  - split; auto.
  - rewrite Bool.andb_true_iff, IH. split.
    + intros [Hxy Hs]. constructor; auto.
    + intros Hs. inversion Hs as [|? ? Hs' Hhd]; subst.
      inversion Hhd; subst. auto.
Qed.

Lemma flt_transitive : Relations_1.Transitive (fun a b => flt a b = true).
Proof. intros a b c. apply flt_trans. Qed.

#[export] Hint Resolve flt_transitive : diag.
#[export] Hint Rewrite is_rising_cons2 : diag_rw.

(** C18. The index loop of the source decides the reference predicate. *)
Theorem is_rising_spec xs : is_rising xs = true <-> strictly_increasing xs.
Proof.
  rewrite is_rising_chain, rising_chain_sorted. unfold strictly_increasing.
  split; [apply Sorted_StronglySorted, flt_transitive | apply StronglySorted_Sorted].
Qed.

(** A single non-increasing adjacent pair in the window defeats the test. *)
Lemma is_rising_pair_false pre a b post :
  flt a b = false -> is_rising (pre ++ a :: b :: post) = false.
Proof.
  intros Hab. rewrite is_rising_chain.
  induction pre as [|x [|y pre] IH]; simpl in *.
  - now rewrite Hab.
  - now rewrite Hab, Bool.andb_false_r.
  - now rewrite IH, Bool.andb_false_r.
Qed.

(** [nan] anywhere in a window of two or more items defeats the test. *)
Lemma is_rising_nan pre post :
  pre ++ post <> [] -> is_rising (pre ++ NaN :: post) = false.
Proof.
  intros Hne. destruct post as [|b post].
  - destruct pre as [|a pre] using rev_ind; [easy|].
    rewrite <- app_assoc. apply is_rising_pair_false, flt_nan_r.
  - apply is_rising_pair_false, flt_nan_l.
Qed.
