(* ===== verification/Reading.v ===== *)
(** The two dictionaries that cross component boundaries.

    - A reading is the dict returned by [HardwareInterface.get_data]
      (hardware_interface.py:42 for a serial JSON line, :81-85 for the
      simulator) with keys ['temp'], ['volt'], ['curr']; a JSON line may lack
      any of them, so each field is an [option].  [dict.get(k, 0)]
      (agent_brain.py:25) is [get_or_zero].
    - A decision is the dict [result] built by [analyze]
      (agent_brain.py:28-32): ['status'] (one of four strings), ['actions']
      (a list of command strings) and ['reason'].  The reason is an f-string;
      it is modelled by the tagged union of its five formats, carrying the
      values they interpolate.  Two reasons render to the same text exactly
      when they are [reason_eqb] (the thresholds are formatted with
      [:.1f], the temperature with [str]; see [ControlLoop] for the
      comparison of reasons in main.py:87). *)

From Stdlib Require Import QArith ZArith List Bool Arith.
From S2P Require Import Prelude PyFloat.
Import ListNotations.

Record reading : Type := mk_reading {
  r_temp : option pyfloat;
  r_volt : option pyfloat;
  r_curr : option pyfloat
}.

(** [data.get(k, 0)] *)
Definition get_or_zero (v : option pyfloat) : pyfloat :=
  match v with
  | Some x => x
  | None => Fin 0
  end.

(** A reading with all three keys and finite values. *)
Definition reading_of (t v c : Q) : reading :=
  mk_reading (Some (Fin t)) (Some (Fin v)) (Some (Fin c)).

(** The strings of [result['status']]. *)
Inductive Status : Type :=
| NORMAL
| LEARNING
| WARNING
| FAULT.

(** The command strings of [result['actions']]. *)
Inductive Action : Type :=
| CHECK_LOAD
| EMERGENCY_STOP
| ALARM_ON
| FAN_MAX
| PRE_EMPTIVE_COOLING.

(** The formats of [result['reason']]. *)
Inductive Reason : Type :=
| System_Stable                                  (* "System Stable" *)
| Calibrating_Agent (progress limit : nat)       (* f"Calibrating Agent... ({progress}/{limit})" *)
| Abnormal_Deviation (threshold : pyfloat)       (* f"Abnormal Deviation (>{threshold:.1f}C)" *)
| Critical_Overheat (temp : pyfloat)             (* f"CRITICAL OVERHEAT ({temp}°C)" *)
| Trend_Rapid_Heating.                           (* "Trend: Rapid Heating Detected" *)

Record decision : Type := mk_decision {
  status : Status;
  actions : list Action;
  reason : Reason
}.

Definition status_eqb (a b : Status) : bool :=
  match a, b with
  | NORMAL, NORMAL | LEARNING, LEARNING | WARNING, WARNING | FAULT, FAULT => true
  | _, _ => false
  end.

(** Equality of numbers as printed: equal as rationals, or the same
    special value. *)
Definition pyfloat_eqb (a b : pyfloat) : bool :=
  match a, b with
  | Fin x, Fin y => Qeq_bool x y
  | PInf, PInf | NInf, NInf | NaN, NaN => true
  | _, _ => false
  end.

(** Equality of two numbers formatted with [:.1f]: the same value
    rounded half to even at one decimal, or the same special value
    (["inf"], ["-inf"], ["nan"]). *)
Definition format_1f_eqb (a b : pyfloat) : bool :=
  match a, b with
  | Fin x, Fin y => Z.eqb (round_half_even (x * 10)) (round_half_even (y * 10))
  | PInf, PInf | NInf, NInf | NaN, NaN => true
  | _, _ => false
  end.

(** Equality of the rendered reason strings. *)
Definition reason_eqb (a b : Reason) : bool :=
  match a, b with
  | System_Stable, System_Stable | Trend_Rapid_Heating, Trend_Rapid_Heating => true
  | Calibrating_Agent p l, Calibrating_Agent p' l' => Nat.eqb p p' && Nat.eqb l l'
  | Abnormal_Deviation t, Abnormal_Deviation t' => format_1f_eqb t t'
  | Critical_Overheat t, Critical_Overheat t' => pyfloat_eqb t t'
  | _, _ => false
  end.

Lemma status_eqb_eq a b : status_eqb a b = true <-> a = b.
Proof. destruct a, b; simpl; split; congruence. Qed.

Lemma pyfloat_eqb_feq a b : pyfloat_eqb a b = true <-> a =f= b.
Proof. destruct a, b; simpl; try (split; easy). apply Qeq_bool_iff. Qed.

Lemma reason_eqb_refl r : reason_eqb r r = true.
Proof.
  destruct r as [|p l|t|t|]; simpl; try reflexivity.
  - now rewrite !Nat.eqb_refl.
  - destruct t; simpl; try reflexivity. apply Z.eqb_refl.
  - apply pyfloat_eqb_feq. reflexivity.
Qed.

#[export] Hint Resolve reason_eqb_refl : diag.
