(* ===== verification/AgentBrain.v ===== *)
(** The decision engine, class [AgentBrain] of src/agent_brain.py.

    The object's attributes are the record [AgentBrain]; [__init__] is
    [init]; [analyze] is [analyze], built from [calibrate] (lines 35-50) and
    [monitor] (lines 53-82), the latter composed of the three rules in the
    source's order.  A Python exception escaping [analyze] is the outcome
    [Raised], which keeps the state as mutated before the raise (the
    buffer append of line 36 happens before [statistics.mean] at line 43).
    [reachable] is the state machine's reachable set from a fresh object
    whose [calibration_limit] may have been reassigned (a plain attribute
    in Python); [run] drives [analyze] over a list of readings as the
    control loop does. *)

From Stdlib Require Import QArith Lqa List Arith Lia Bool.
From S2P Require Import Prelude PyFloat Deque Trend Reading.
Import ListNotations.
Local Open Scope nat_scope.

Module AgentBrain.

(** [self.state]: the two strings the source assigns. *)
Inductive Phase : Type :=
| CALIBRATING
| MONITORING.

Record AgentBrain : Type := mk_brain {
  state : Phase;
  calibration_buffer : list pyfloat;
  calibration_limit : nat;
  baseline_temp : pyfloat;
  dynamic_threshold : pyfloat;
  HARD_LIMIT_TEMP : pyfloat;
  temp_history : Deque.deque pyfloat
}.

(** [AgentBrain.__init__] (lines 5-19). *)
Definition init : AgentBrain :=
  mk_brain CALIBRATING [] 20 (Fin 0) (Fin 0) (Fin 80) (Deque.deque_new 20).

(** [brain.calibration_limit = n], the only knob the object exposes. *)
Definition set_calibration_limit (n : nat) (b : AgentBrain) : AgentBrain :=
  mk_brain (state b) (calibration_buffer b) n (baseline_temp b)
           (dynamic_threshold b) (HARD_LIMIT_TEMP b) (temp_history b).

(** The literal [1.2] of line 45 and the [5] of line 75. *)
Definition THRESHOLD_FACTOR : Q := 6 # 5.
Definition TREND_MARGIN : pyfloat := Fin 5.

(** What [analyze] does with the object: it returns a decision, or an
    exception escapes it after some attributes were already updated. *)
Inductive outcome : Type :=
| Returned (d : decision) (b : AgentBrain)
| Raised (e : py_error) (b : AgentBrain).

(** [result] as initialised at lines 28-32. *)
Definition default_result : decision := mk_decision NORMAL [] System_Stable.

(** Phase 1 (lines 35-50). *)
Definition calibrate (b : AgentBrain) (temp : pyfloat) : outcome :=
  let buf := calibration_buffer b ++ [temp] in
  let progress := length buf in
  let result := mk_decision LEARNING [] (Calibrating_Agent progress (calibration_limit b)) in
  let b1 := mk_brain (state b) buf (calibration_limit b) (baseline_temp b)
                     (dynamic_threshold b) (HARD_LIMIT_TEMP b) (temp_history b) in
  if calibration_limit b <=? length buf then
    match mean buf with
    | inl e => Raised e b1
    | inr m =>
        Returned result
          (mk_brain MONITORING buf (calibration_limit b) m (fscale THRESHOLD_FACTOR m)
                    (HARD_LIMIT_TEMP b) (temp_history b))
    end
  else Returned result b1.

(** Rule 1, dynamic anomaly detection (lines 57-60). *)
Definition rule_dynamic (b : AgentBrain) (temp : pyfloat) (result : decision) : decision :=
  if fgt temp (dynamic_threshold b)
  then mk_decision WARNING [CHECK_LOAD] (Abnormal_Deviation (dynamic_threshold b))
  else result.

(** Rule 2, hard safety limit (lines 63-66). *)
Definition rule_hard_limit (b : AgentBrain) (temp : pyfloat) (result : decision) : decision :=
  if fgt temp (HARD_LIMIT_TEMP b)
  then mk_decision FAULT [EMERGENCY_STOP; ALARM_ON; FAN_MAX] (Critical_Overheat temp)
  else result.

(** Rule 3, trend analysis (lines 70-80), on the history after the
    append of line 53. *)
Definition rule_trend (b : AgentBrain) (hist : list pyfloat) (temp : pyfloat)
           (result : decision) : decision :=
  if TREND_WINDOW <=? length hist then
    let recent := trend_window hist in
    if is_rising recent && fgt temp (fadd (baseline_temp b) TREND_MARGIN) then
      match status result with
      | NORMAL => mk_decision WARNING (actions result ++ [PRE_EMPTIVE_COOLING])
                              Trend_Rapid_Heating
      | _ => result
      end
    else result
  else result.

(** Phase 2 (lines 53-82). *)
Definition monitor (b : AgentBrain) (temp : pyfloat) : outcome :=
  let hist := Deque.append (temp_history b) temp in
  let b1 := mk_brain (state b) (calibration_buffer b) (calibration_limit b)
                     (baseline_temp b) (dynamic_threshold b) (HARD_LIMIT_TEMP b) hist in
  let r1 := rule_dynamic b1 temp default_result in
  let r2 := rule_hard_limit b1 temp r1 in
  let r3 := rule_trend b1 (Deque.to_list hist) temp r2 in
  Returned r3 b1.

(** [AgentBrain.analyze] (lines 21-82): [temp = data.get('temp', 0)];
    [volt] is read and unused. *)
Definition analyze (b : AgentBrain) (data : reading) : outcome :=
  let temp := get_or_zero (r_temp data) in
  match state b with
  | CALIBRATING => calibrate b temp
  | MONITORING => monitor b temp
  end.

(** The driver: one [analyze] per reading; an exception ends the run. *)
Fixpoint run (b : AgentBrain) (rs : list reading) : list decision * AgentBrain :=
  match rs with
  | [] => ([], b)
  | r :: rs' =>
      match analyze b r with
      | Returned d b' => let '(ds, bf) := run b' rs' in (d :: ds, bf)
      | Raised _ b' => ([], b')
      end
  end.

(** States reachable from a fresh object with calibration limit [n]. *)
Inductive reachable (n : nat) : AgentBrain -> Prop :=
| reach_init : reachable n (set_calibration_limit n init)
| reach_step b r d b' :
    reachable n b -> analyze b r = Returned d b' -> reachable n b'.

Definition temps_of (rs : list reading) : list pyfloat :=
  map (fun r => get_or_zero (r_temp r)) rs.

(** The decision of a calibrating call, [progress] samples collected. *)
Definition learning (progress n : nat) : decision :=
  mk_decision LEARNING [] (Calibrating_Agent progress n).

(** The state after the calibrating call that collects the last sample. *)
Definition calibrated (b : AgentBrain) (buf : list pyfloat) (m : pyfloat) : AgentBrain :=
  mk_brain MONITORING buf (calibration_limit b) m (fscale THRESHOLD_FACTOR m)
           (HARD_LIMIT_TEMP b) (temp_history b).

(** The state with one more calibration sample. *)
Definition with_sample (b : AgentBrain) (t : pyfloat) : AgentBrain :=
  mk_brain (state b) (calibration_buffer b ++ [t]) (calibration_limit b) (baseline_temp b)
           (dynamic_threshold b) (HARD_LIMIT_TEMP b) (temp_history b).

(** The state after a monitored temperature: only the history moves. *)
Definition with_history (b : AgentBrain) (t : pyfloat) : AgentBrain :=
  mk_brain (state b) (calibration_buffer b) (calibration_limit b)
           (baseline_temp b) (dynamic_threshold b) (HARD_LIMIT_TEMP b)
           (Deque.append (temp_history b) t).

(** The invariant of the reachable states of limit [n] ([Nat.max 1 n]
    samples are collected: the check follows the append). *)
Definition brain_inv (n : nat) (b : AgentBrain) : Prop :=
  calibration_limit b = n /\ HARD_LIMIT_TEMP b = Fin 80 /\
  Deque.dq_maxlen (temp_history b) = 20 /\ Deque.dq_wf (temp_history b) /\
  match state b with
  | CALIBRATING =>
      Deque.dq_items (temp_history b) = [] /\ length (calibration_buffer b) < Nat.max 1 n
  | MONITORING =>
      length (calibration_buffer b) = Nat.max 1 n /\
      mean (calibration_buffer b) = inr (baseline_temp b) /\
      dynamic_threshold b = fscale THRESHOLD_FACTOR (baseline_temp b)
  end.

(** ** The two phases of [analyze] *)

Lemma analyze_calibrating b r :
  state b = CALIBRATING -> analyze b r = calibrate b (get_or_zero (r_temp r)).
Proof. intros H. unfold analyze. now rewrite H. Qed.

Lemma analyze_monitoring b r :
  state b = MONITORING -> analyze b r = monitor b (get_or_zero (r_temp r)).
Proof. intros H. unfold analyze. now rewrite H. Qed.

(** A calibrating call below the limit only collects the sample. *)
Lemma calibrate_collect b t :
  length (calibration_buffer b) + 1 < calibration_limit b ->
  calibrate b t = Returned (learning (length (calibration_buffer b) + 1) (calibration_limit b))
                           (with_sample b t).
Proof.
  intros H. unfold calibrate. rewrite length_app. simpl length.
  destruct (Nat.leb_spec (calibration_limit b) (length (calibration_buffer b) + 1)); [lia|].
  reflexivity.
Qed.

(** The call that reaches the limit computes the baseline. *)
Lemma calibrate_complete b t :
  calibration_limit b <= length (calibration_buffer b) + 1 ->
  exists m, mean (calibration_buffer b ++ [t]) = inr m /\
    calibrate b t = Returned (learning (length (calibration_buffer b) + 1) (calibration_limit b))
                             (calibrated b (calibration_buffer b ++ [t]) m).
Proof.
  intros H. destruct (mean_ok (calibration_buffer b ++ [t])) as [m Hm].
  { intros E. now apply app_eq_nil in E as [_ ?]. }
  exists m. split; [exact Hm|]. unfold calibrate. rewrite Hm, length_app. simpl length.
  destruct (Nat.leb_spec (calibration_limit b) (length (calibration_buffer b) + 1)); [|lia].
  reflexivity.
Qed.

Lemma monitor_state b t :
  exists d, monitor b t = Returned d (with_history b t).
Proof. eexists. reflexivity. Qed.

(** ** Totality on the modelled readings *)

(** On a reading whose values are floats or absent, every call returns a
    decision and a new state: [statistics.mean] is only reached with the
    sample just appended.  (The [TypeError] and [AttributeError] paths of
    lines 25, 43 and 57 need JSON values the model does not represent.) *)
Lemma analyze_total b r :
  exists d b', analyze b r = Returned d b'.
Proof.
  unfold analyze. destruct (state b).
  - set (t := get_or_zero (r_temp r)).
    destruct (Nat.ltb_spec (length (calibration_buffer b) + 1) (calibration_limit b)).
    + rewrite calibrate_collect by lia. eauto.
    + destruct (calibrate_complete b t) as [m [_ ->]]; [lia|]. eauto.
  - destruct (monitor_state b (get_or_zero (r_temp r))) as [d ->]. eauto.
Qed.

(** ** The invariant of the reachable states *)

Lemma init_inv n : brain_inv n (set_calibration_limit n init).
Proof. unfold brain_inv, Deque.dq_wf; cbn -[Nat.max]. repeat split; auto; lia. Qed.

Lemma analyze_inv n b r d b' :
  brain_inv n b -> analyze b r = Returned d b' -> brain_inv n b'.
Proof.
  unfold brain_inv, analyze. intros (Hn & Hh & Hm & Hw & Hs) Ha.
  destruct (state b) eqn:Est.
  - destruct Hs as [Hi Hl]. set (t := get_or_zero (r_temp r)) in Ha.
    destruct (Nat.ltb_spec (length (calibration_buffer b) + 1) (calibration_limit b)).
    + rewrite calibrate_collect in Ha by lia. injection Ha as <- <-.
      cbn -[Nat.max]. rewrite Est, length_app. cbn -[Nat.max]. repeat split; auto. lia.
    + destruct (calibrate_complete b t) as [m [Hmean Hc]]; [lia|].
      rewrite Hc in Ha. injection Ha as <- <-. cbn -[Nat.max].
      rewrite length_app. cbn -[Nat.max]. repeat split; auto. lia.
  - injection Ha as <- <-. cbn -[Nat.max]. rewrite Est.
    rewrite Deque.append_maxlen. repeat split; try apply Hs; auto. now apply Deque.append_wf.
Qed.

(** Every reachable state satisfies the invariant: the hard limit is
    80, the history is a well-formed deque of capacity 20, it stays empty
    while calibrating, fewer than the limit samples are buffered while
    calibrating, and once monitoring the baseline is the mean of the
    buffer and the threshold is 1.2 times it. *)
Lemma reachable_inv n b : reachable n b -> brain_inv n b.
Proof.
  induction 1 as [|b r d b' _ IH Ha]; [apply init_inv|].
  eapply analyze_inv; eassumption.
Qed.

(** Every state a run passes through is reachable. *)
Lemma run_reachable n b rs : reachable n b -> reachable n (snd (run b rs)).
Proof.
  revert b. induction rs as [|r rs IH]; intros b Hb; simpl; [exact Hb|].
  destruct (analyze b r) as [d b'|e b'] eqn:Ha.
  - destruct (run b' rs) as [ds bf] eqn:Hr. simpl.
    specialize (IH b' (reach_step n b r d b' Hb Ha)). now rewrite Hr in IH.
  - destruct (analyze_total b r) as (? & ? & E). congruence.
Qed.

(** C16. The history never holds more than 20 temperatures, in every
    reachable state (the deque's [maxlen] is 20 and [append] trims). *)
Theorem history_bounded n b :
  reachable n b -> length (Deque.dq_items (temp_history b)) <= 20.
Proof.
  intros H. apply reachable_inv in H as (_ & _ & Hm & Hw & _).
  unfold Deque.dq_wf in Hw. lia.
Qed.

Lemma history_bounded_witness :
  length (Deque.dq_items (temp_history
    (snd (run (set_calibration_limit 1 init) (repeat (reading_of 40 5 1) 30))))) <= 20.
Proof. apply (history_bounded 1), run_reachable, reach_init. Defined.

End AgentBrain.
