(* ===== verification/BrainSpec.v ===== *)
(** The contract of the monitoring phase and its refinement.

    [classify] states the rule table of the engine declaratively, by
    priority: the hard limit first, then the learned threshold, then the
    trend, else "System Stable".  The source reaches the same decision by
    running the three rules in sequence, each overwriting (or, for the
    trend, conditionally upgrading) the [result] dict.  The refinement
    theorem [analyze_refines_spec] shows the two agree on every input;
    the safety and functional properties of the monitoring phase are then
    read off [classify] for the reachable states. *)

From Stdlib Require Import QArith List Arith Lia Bool Sorted.
From S2P Require Import Prelude PyFloat Deque Trend Reading AgentBrain.
Import ListNotations.
Import AgentBrain.
Local Open Scope nat_scope.

Module BrainSpec.

Definition fault_decision (t : pyfloat) : decision :=
  mk_decision FAULT [EMERGENCY_STOP; ALARM_ON; FAN_MAX] (Critical_Overheat t).

Definition deviation_decision (thr : pyfloat) : decision :=
  mk_decision WARNING [CHECK_LOAD] (Abnormal_Deviation thr).

Definition trend_decision : decision :=
  mk_decision WARNING [PRE_EMPTIVE_COOLING] Trend_Rapid_Heating.

(** The trend condition, on the history that includes [t]. *)
Definition trend_fires (base : pyfloat) (hist : list pyfloat) (t : pyfloat) : bool :=
  (TREND_WINDOW <=? length hist) && is_rising (trend_window hist)
  && fgt t (fadd base TREND_MARGIN).

(** The rule table, by priority. *)
Definition classify (thr hard base : pyfloat) (hist : list pyfloat) (t : pyfloat) : decision :=
  if fgt t hard then fault_decision t
  else if fgt t thr then deviation_decision thr
  else if trend_fires base hist t then trend_decision
  else default_result.

(** The history after the monitored temperature [t]. *)
Definition history_after (b : AgentBrain) (t : pyfloat) : list pyfloat :=
  Deque.dq_items (Deque.append (temp_history b) t).

(** Case analysis of the three rules against the table: every condition
    the rules or the table test, one branch each. *)
Ltac rules_vs_table :=
  unfold rule_trend, rule_hard_limit, rule_dynamic, classify, trend_fires, history_after, Deque.to_list;
  cbn [with_history dynamic_threshold HARD_LIMIT_TEMP baseline_temp];
  repeat match goal with
  | |- context [fgt ?a ?b] => destruct (fgt a b)
  | |- context [?x <=? ?y] => destruct (x <=? y)
  | |- context [is_rising ?l] => destruct (is_rising l)
  end;
  reflexivity.

(** The three rules run in sequence compute the priority table. *)
Lemma rules_classify b t :
  rule_trend (with_history b t) (history_after b t) t
    (rule_hard_limit (with_history b t) t (rule_dynamic (with_history b t) t default_result))
  = classify (dynamic_threshold b) (HARD_LIMIT_TEMP b) (baseline_temp b) (history_after b t) t.
Proof. rules_vs_table. Qed.

(** On a monitoring object, [analyze] returns the decision of the rule
    table for the object's parameters and only pushes the temperature on
    the history. *)
Lemma analyze_monitoring_classify b r :
  state b = MONITORING ->
  analyze b r =
    Returned (classify (dynamic_threshold b) (HARD_LIMIT_TEMP b) (baseline_temp b)
                       (history_after b (get_or_zero (r_temp r))) (get_or_zero (r_temp r)))
             (with_history b (get_or_zero (r_temp r))).
Proof.
  intros H. rewrite analyze_monitoring by exact H. unfold monitor.
  rewrite <- rules_classify. reflexivity.
Qed.

(** The reference form of the trend condition. *)
Lemma trend_fires_spec base hist t :
  trend_fires base hist t = true <->
  TREND_WINDOW <= length hist /\ strictly_increasing (trend_window hist) /\
  fgt t (fadd base TREND_MARGIN) = true.
Proof.
  unfold trend_fires, strictly_increasing.
  rewrite !andb_true_iff, Nat.leb_le, is_rising_chain, rising_chain_sorted.
  pose proof (@Sorted_StronglySorted _ _ flt_transitive (trend_window hist)).
  pose proof (@StronglySorted_Sorted _ (fun a b => flt a b = true) (trend_window hist)).
  tauto.
Qed.

Lemma reachable_monitoring_hard n b :
  reachable n b -> HARD_LIMIT_TEMP b = Fin 80.
Proof. intros H. apply reachable_inv in H. apply H. Qed.

(** C2. Refinement: on every reachable monitoring state, [analyze]
    computes the rule table of the spec with its parameters (threshold
    1.2 times the learned baseline, hard limit 80), and only pushes the
    temperature on the history. *)
Theorem analyze_refines_spec n b r :
  reachable n b -> state b = MONITORING ->
  let t := get_or_zero (r_temp r) in
  analyze b r =
    Returned (classify (fscale THRESHOLD_FACTOR (baseline_temp b)) (Fin 80) (baseline_temp b)
                       (history_after b t) t)
             (with_history b t).
Proof.
  intros Hr Hs. cbv zeta. rewrite analyze_monitoring by exact Hs.
  apply reachable_inv in Hr as (_ & Hh & _ & _ & Hm). rewrite Hs in Hm.
  destruct Hm as (_ & _ & Hthr). rewrite <- Hh, <- Hthr.
  unfold monitor. f_equal. rules_vs_table.
Qed.

(** C1. Hard-limit precedence: on every reachable monitoring state, a
    reading above 80 yields FAULT with exactly
    [[EMERGENCY_STOP; ALARM_ON; FAN_MAX]] and the overheat reason, whatever
    the learned threshold and the trend. *)
Theorem hard_limit_precedence n b r t :
  reachable n b -> state b = MONITORING -> r_temp r = Some t ->
  fgt t (Fin 80) = true ->
  analyze b r = Returned (fault_decision t) (with_history b t).
Proof.
  intros Hr Hs Ht Hgt. rewrite analyze_monitoring by exact Hs.
  rewrite Ht. simpl get_or_zero. rewrite <- (reachable_monitoring_hard n b Hr) in Hgt.
  unfold monitor, rule_dynamic, rule_hard_limit, rule_trend.
  cbn [dynamic_threshold HARD_LIMIT_TEMP baseline_temp]. rewrite Hgt.
  repeat match goal with |- context [if ?c then _ else _] => destruct c end; reflexivity.
Qed.

(** C11. The learned threshold: above it and at most 80, the decision is
    WARNING with [[CHECK_LOAD]] and the deviation reason. *)
Theorem deviation_warning n b r t :
  reachable n b -> state b = MONITORING -> r_temp r = Some t ->
  fgt t (dynamic_threshold b) = true -> fgt t (Fin 80) = false ->
  analyze b r = Returned (deviation_decision (dynamic_threshold b)) (with_history b t).
Proof.
  intros Hr Hs Ht Hthr Hhard. rewrite analyze_monitoring_classify by exact Hs.
  rewrite Ht. simpl get_or_zero. unfold classify.
  now rewrite (reachable_monitoring_hard n b Hr), Hhard, Hthr.
Qed.

(** C12. The trend rule: at or below both limits, the decision is the
    trend warning with [[PRE_EMPTIVE_COOLING]] exactly when the history
    holds five or more items, its last five are strictly increasing and
    the reading exceeds [baseline_temp + 5]; otherwise "System Stable"
    with no action. *)
Theorem trend_rule n b r t :
  reachable n b -> state b = MONITORING -> r_temp r = Some t ->
  fgt t (dynamic_threshold b) = false -> fgt t (Fin 80) = false ->
  let hist := history_after b t in
  ((TREND_WINDOW <= length hist /\ strictly_increasing (trend_window hist) /\
      fgt t (fadd (baseline_temp b) TREND_MARGIN) = true) /\
     analyze b r = Returned trend_decision (with_history b t))
  \/
  (~ (TREND_WINDOW <= length hist /\ strictly_increasing (trend_window hist) /\
        fgt t (fadd (baseline_temp b) TREND_MARGIN) = true) /\
     analyze b r = Returned default_result (with_history b t)).
Proof.
  intros Hr Hs Ht Hthr Hhard hist. rewrite analyze_monitoring_classify by exact Hs.
  rewrite Ht. simpl get_or_zero. unfold classify.
  rewrite (reachable_monitoring_hard n b Hr), Hhard, Hthr.
  rewrite <- trend_fires_spec. fold hist.
  destruct (trend_fires (baseline_temp b) hist t); [left | right]; intuition congruence.
Qed.

(** C13. The action list is empty exactly when the status is NORMAL or
    LEARNING, on every call from any state (spec, section 6). *)
Theorem actions_empty_iff_quiet b r d b' :
  analyze b r = Returned d b' ->
  (actions d = [] <-> status d = NORMAL \/ status d = LEARNING).
Proof.
  destruct (state b) eqn:Hs.
  - rewrite analyze_calibrating by exact Hs. intros Ha.
    destruct (Nat.ltb_spec (length (calibration_buffer b) + 1) (calibration_limit b)).
    + rewrite calibrate_collect in Ha by lia. injection Ha as <- _. simpl. tauto.
    + destruct (calibrate_complete b (get_or_zero (r_temp r))) as [m [_ Hc]]; [lia|].
      rewrite Hc in Ha. injection Ha as <- _. simpl. tauto.
  - rewrite analyze_monitoring_classify by exact Hs. intros Ha. injection Ha as <- _.
    unfold classify.
    destruct (fgt _ (HARD_LIMIT_TEMP b)); [simpl; intuition discriminate|].
    destruct (fgt _ (dynamic_threshold b)); [simpl; intuition discriminate|].
    destruct (trend_fires _ _ _); simpl; intuition discriminate.
Qed.

(** C17. [MONITORING] is absorbing, and the learned baseline, the threshold
    and the hard limit never change once learned. *)
Theorem monitoring_absorbing b r d b' :
  state b = MONITORING -> analyze b r = Returned d b' ->
  state b' = MONITORING /\ baseline_temp b' = baseline_temp b /\
  dynamic_threshold b' = dynamic_threshold b /\ HARD_LIMIT_TEMP b' = HARD_LIMIT_TEMP b.
Proof.
  intros Hs Ha. rewrite analyze_monitoring_classify in Ha by exact Hs.
  injection Ha as _ <-. simpl. auto.
Qed.

(** ** Witnesses: scenario A of the spec (limit 3, samples 40, 42, 41:
    baseline 41, threshold 49.2) and a rising history. *)

Definition demo_brain : AgentBrain :=
  snd (run (set_calibration_limit 3 init)
           [reading_of 40 5 1; reading_of 42 5 1; reading_of 41 5 1]).

Definition demo_rising_brain : AgentBrain :=
  snd (run (set_calibration_limit 3 init)
           [reading_of 40 5 1; reading_of 42 5 1; reading_of 41 5 1; reading_of 44 5 1;
            reading_of 45 5 1; reading_of 46 5 1; reading_of 47 5 1]).

Lemma analyze_refines_spec_witness :
  analyze demo_brain (reading_of 50 5 1) =
  Returned (classify (fscale THRESHOLD_FACTOR (baseline_temp demo_brain)) (Fin 80)
                     (baseline_temp demo_brain) (history_after demo_brain (Fin 50)) (Fin 50))
           (with_history demo_brain (Fin 50)).
Proof. apply (analyze_refines_spec 3); [apply run_reachable, reach_init | reflexivity]. Defined.

(** Scenario B: 85 is above both limits and the answer is FAULT. *)
Lemma hard_limit_precedence_witness :
  fgt (Fin 85) (dynamic_threshold demo_brain) = true /\
  analyze demo_brain (reading_of 85 5 1) =
  Returned (fault_decision (Fin 85)) (with_history demo_brain (Fin 85)).
Proof.
  split; [reflexivity|].
  apply (hard_limit_precedence 3); [apply run_reachable, reach_init | reflexivity ..].
Defined.

(** Scenario A: 50 is above 49.2 and below 80. *)
Lemma deviation_warning_witness :
  analyze demo_brain (reading_of 50 5 1) =
  Returned (deviation_decision (dynamic_threshold demo_brain)) (with_history demo_brain (Fin 50)).
Proof.
  apply (deviation_warning 3); [apply run_reachable, reach_init | reflexivity ..].
Defined.

(** After 44, 45, 46, 47 a reading of 48 completes a rising window and is
    above 41 + 5: the trend branch. *)
Lemma trend_rule_witness :
  let b := demo_rising_brain in
  let hist := history_after b (Fin 48) in
  ((TREND_WINDOW <= length hist /\ strictly_increasing (trend_window hist) /\
      fgt (Fin 48) (fadd (baseline_temp b) TREND_MARGIN) = true) /\
     analyze b (reading_of 48 5 1) = Returned trend_decision (with_history b (Fin 48)))
  \/
  (~ (TREND_WINDOW <= length hist /\ strictly_increasing (trend_window hist) /\
        fgt (Fin 48) (fadd (baseline_temp b) TREND_MARGIN) = true) /\
     analyze b (reading_of 48 5 1) = Returned default_result (with_history b (Fin 48))).
Proof.
  apply (trend_rule 3); [apply run_reachable, reach_init | reflexivity ..].
Defined.

Lemma actions_empty_iff_quiet_witness :
  actions (fault_decision (Fin 85)) = [] <->
  status (fault_decision (Fin 85)) = NORMAL \/ status (fault_decision (Fin 85)) = LEARNING.
Proof.
  apply (actions_empty_iff_quiet demo_brain (reading_of 85 5 1) _
           (with_history demo_brain (Fin 85))).
  reflexivity.
Defined.

Lemma monitoring_absorbing_witness :
  let b' := with_history demo_brain (Fin 85) in
  state b' = MONITORING /\ baseline_temp b' = baseline_temp demo_brain /\
  dynamic_threshold b' = dynamic_threshold demo_brain /\
  HARD_LIMIT_TEMP b' = HARD_LIMIT_TEMP demo_brain.
Proof.
  apply (monitoring_absorbing demo_brain (reading_of 85 5 1) (fault_decision (Fin 85)));
    reflexivity.
Defined.

End BrainSpec.
