(* ===== verification/Session.v ===== *)
(** Whole sessions of the engine: a fresh [AgentBrain] (calibration limit
    [n], 20 in [__init__]) driven by [run] over a list of readings, as the
    control loop of main.py does.  The lemmas split a run into its
    calibration prefix and its monitoring suffix; the theorems give the
    statuses of every call, the learned baseline, the contents of the
    history, and the effect of a [nan] calibration sample. *)

From Stdlib Require Import QArith List Arith Lia Bool.
From S2P Require Import Prelude PyFloat Deque Trend Reading AgentBrain BrainSpec.
Import ListNotations.
Import AgentBrain BrainSpec.
Local Open Scope nat_scope.

Module Session.

(** A fresh object whose limit was set to [n]. *)
Definition fresh (n : nat) : AgentBrain := set_calibration_limit n init.

(** The decisions of calls [k+1 .. k+len] of the calibration phase. *)
Definition learning_run (k len n : nat) : list decision :=
  map (fun p => learning p n) (seq (S k) len).

(** The object after the calibration samples [ts] were collected. *)
Definition collecting (b : AgentBrain) (ts : list pyfloat) : AgentBrain :=
  mk_brain (state b) (calibration_buffer b ++ ts) (calibration_limit b) (baseline_temp b)
           (dynamic_threshold b) (HARD_LIMIT_TEMP b) (temp_history b).

(** The object after the monitored temperatures [ts]: only the history
    moves, by the deque's pushes. *)
Definition monitored (b : AgentBrain) (ts : list pyfloat) : AgentBrain :=
  mk_brain (state b) (calibration_buffer b) (calibration_limit b) (baseline_temp b)
           (dynamic_threshold b) (HARD_LIMIT_TEMP b) (push_all (temp_history b) ts).

(** The object right after calibration on the samples [ts] with mean [m]. *)
Definition learned (n : nat) (ts : list pyfloat) (m : pyfloat) : AgentBrain :=
  mk_brain MONITORING ts n m (fscale THRESHOLD_FACTOR m) (Fin 80) (Deque.deque_new 20).

(** ** Splitting runs *)

Lemma run_step b r rs d b' :
  analyze b r = Returned d b' ->
  run b (r :: rs) = (d :: fst (run b' rs), snd (run b' rs)).
Proof. intros H. simpl. rewrite H. now destruct (run b' rs). Qed.

Lemma run_app b rs1 rs2 :
  run b (rs1 ++ rs2) =
  (fst (run b rs1) ++ fst (run (snd (run b rs1)) rs2), snd (run (snd (run b rs1)) rs2)).
Proof.
  revert b. induction rs1 as [|r rs1 IH]; intros b; simpl.
  - now destruct (run b rs2).
  - destruct (analyze_total b r) as (d & b' & Ha).
    rewrite Ha, IH. now destruct (run b' rs1).
Qed.

Lemma run_length b rs : length (fst (run b rs)) = length rs.
Proof.
  revert b. induction rs as [|r rs IH]; intros b; [easy|].
  destruct (analyze_total b r) as (d & b' & Ha).
  rewrite (run_step _ _ _ _ _ Ha). simpl. now rewrite IH.
Qed.

(** Below the limit, calls only collect. *)
Lemma run_collecting b rs :
  state b = CALIBRATING ->
  length (calibration_buffer b) + length rs < calibration_limit b ->
  run b rs = (learning_run (length (calibration_buffer b)) (length rs) (calibration_limit b),
              collecting b (temps_of rs)).
Proof.
  revert b. induction rs as [|r rs IH]; intros b Hs Hl.
  - unfold collecting. simpl. rewrite app_nil_r. now destruct b.
  - simpl in Hl.
    rewrite (run_step b r rs
               (learning (length (calibration_buffer b) + 1) (calibration_limit b))
               (with_sample b (get_or_zero (r_temp r)))).
    2:{ rewrite analyze_calibrating by exact Hs. apply calibrate_collect. lia. }
    rewrite IH by (simpl; rewrite ?length_app; simpl; first [exact Hs | lia]).
    unfold learning_run, collecting. simpl. rewrite length_app, <- app_assoc.
    simpl. do 3 f_equal; [lia | f_equal; lia].
Qed.

(** The first [n] calls of a fresh object: all LEARNING, and the object
    has learned the mean of their temperatures. *)
Lemma run_calibration n rs :
  1 <= n -> length rs = n ->
  exists m, mean (temps_of rs) = inr m /\
    run (fresh n) rs =
      (learning_run 0 n n,
       learned n (temps_of rs) m).
Proof.
  intros Hn Hl. destruct rs as [|r0 rs0] using rev_ind; [simpl in Hl; lia|].
  clear IHrs0. rewrite length_app in Hl. simpl in Hl.
  rewrite run_app, run_collecting by (simpl; first [reflexivity | lia]). simpl fst; simpl snd.
  destruct (calibrate_complete (collecting (fresh n) (temps_of rs0)) (get_or_zero (r_temp r0)))
    as [m [Hm Hc]]; [simpl; unfold temps_of; rewrite length_map; lia|].
  exists m. unfold temps_of in *. rewrite map_app. simpl in Hm |- *.
  split; [exact Hm|].
  rewrite analyze_calibrating by reflexivity. rewrite Hc. cbn [fst snd].
  subst n. unfold learning_run, calibrated, collecting, learned. simpl.
  rewrite length_map, seq_app, map_app. simpl.
  repeat f_equal; lia.
Qed.

(** A monitoring run: every decision is the rule table's for the learned
    parameters, and the object only pushes the temperatures. *)
Lemma run_monitoring b rs :
  state b = MONITORING ->
  (forall d, In d (fst (run b rs)) ->
     exists hist t, d = classify (dynamic_threshold b) (HARD_LIMIT_TEMP b) (baseline_temp b) hist t)
  /\ snd (run b rs) = monitored b (temps_of rs).
Proof.
  revert b. induction rs as [|r rs IH]; intros b Hs.
  - split; [simpl; tauto|]. unfold monitored. now destruct b.
  - rewrite (run_step _ _ _ _ _ (analyze_monitoring_classify b r Hs)).
    destruct (IH (with_history b (get_or_zero (r_temp r))) Hs) as [Hd Hb].
    split.
    + intros d [<- | Hin]; [eauto|]. apply Hd, Hin.
    + exact Hb.
Qed.

Lemma classify_not_learning thr hard base hist t :
  status (classify thr hard base hist t) <> LEARNING.
Proof.
  unfold classify. destruct (fgt t hard), (fgt t thr), (trend_fires base hist t); discriminate.
Qed.

Lemma learning_run_nth k len n i d :
  nth_error (learning_run k len n) i = Some d -> status d = LEARNING /\ i < len.
Proof.
  unfold learning_run. intros H. split.
  - apply nth_error_In, in_map_iff in H as (p & <- & _). reflexivity.
  - assert (Hs : i < length (map (fun p => learning p n) (seq (S k) len))).
    { apply nth_error_Some. rewrite H. discriminate. }
    now rewrite length_map, length_seq in Hs.
Qed.

Lemma learning_run_nth_eq k len n i d :
  nth_error (learning_run k len n) i = Some d -> d = learning (S k + i) n.
Proof.
  revert k i. induction len as [|len IH]; intros k i H; [destruct i; discriminate|].
  destruct i as [|i]; simpl in H.
  - injection H as <-. f_equal. lia.
  - apply IH in H. rewrite H. f_equal. lia.
Qed.

(** The call of index [i < n] of a fresh object is the [(i+1)]-th
    LEARNING decision. *)
Lemma run_fresh_learning n rs i d :
  1 <= n -> i < n -> nth_error (fst (run (fresh n) rs)) i = Some d -> d = learning (S i) n.
Proof.
  intros Hn Hi H.
  destruct (Nat.lt_ge_cases (length rs) n) as [Hlt | Hge].
  - rewrite run_collecting in H by (simpl; first [reflexivity | lia]).
    exact (learning_run_nth_eq _ _ _ _ _ H).
  - rewrite <- (firstn_skipn n rs), run_app in H.
    destruct (run_calibration n (firstn n rs)) as (m & _ & Hc); [lia | rewrite length_firstn; lia|].
    rewrite Hc in H. simpl in H.
    rewrite nth_error_app1 in H by (unfold learning_run; rewrite length_map, length_seq; lia).
    exact (learning_run_nth_eq _ _ _ _ _ H).
Qed.

(** C8. In every session, the calls that return LEARNING are exactly the
    first [calibration_limit] ones, and every call returns a decision. *)
Theorem learning_exactly_first n rs :
  1 <= n ->
  length (fst (run (fresh n) rs)) = length rs /\
  forall i d, nth_error (fst (run (fresh n) rs)) i = Some d -> (status d = LEARNING <-> i < n).
Proof.
  intros Hn. split; [apply run_length|]. intros i d Hi.
  destruct (Nat.lt_ge_cases (length rs) n) as [Hlt | Hge].
  - rewrite run_collecting in Hi by (simpl; first [reflexivity | lia]).
    apply learning_run_nth in Hi as [Hs Hl]. split; intros; [lia | exact Hs].
  - rewrite <- (firstn_skipn n rs), run_app in Hi.
    destruct (run_calibration n (firstn n rs)) as (m & _ & Hc); [lia | rewrite length_firstn; lia|].
    rewrite Hc in Hi. simpl in Hi.
    destruct (Nat.lt_ge_cases i n) as [Hin | Hin].
    + rewrite nth_error_app1 in Hi by (unfold learning_run; rewrite length_map, length_seq; lia).
      apply learning_run_nth in Hi. tauto.
    + rewrite nth_error_app2 in Hi by (unfold learning_run; rewrite length_map, length_seq; lia).
      apply nth_error_In in Hi.
      edestruct run_monitoring as [Hd _]; [|apply Hd in Hi as (hist & t & ->)]; [reflexivity|].
      split; [intros H; now apply classify_not_learning in H | lia].
Qed.

(** A session of at least [n] readings: [n] learning calls, then a
    monitoring run from the object that learned the first [n] samples. *)
Lemma session_split n rs :
  1 <= n -> n <= length rs ->
  exists m, mean (firstn n (temps_of rs)) = inr m /\
    let b1 := learned n (firstn n (temps_of rs)) m in
    run (fresh n) rs = (learning_run 0 n n ++ fst (run b1 (skipn n rs)),
                        monitored b1 (skipn n (temps_of rs))).
Proof.
  intros Hn Hl.
  destruct (run_calibration n (firstn n rs)) as (m & Hm & Hc);
    [lia | rewrite length_firstn; lia|].
  exists m. unfold temps_of in *. rewrite firstn_map, skipn_map.
  split; [exact Hm|]. cbv zeta.
  rewrite <- (firstn_skipn n rs) at 1. rewrite run_app, Hc. simpl.
  destruct (run_monitoring (learned n (map (fun r => get_or_zero (r_temp r)) (firstn n rs)) m)
              (skipn n rs) eq_refl) as [_ ->].
  reflexivity.
Qed.

(** C9. The learned baseline is the mean of exactly the first
    [calibration_limit] temperatures, the threshold is [1.2] times it, and
    both stay put for the rest of the session. *)
Theorem baseline_is_mean n rs :
  1 <= n -> n <= length rs ->
  let bf := snd (run (fresh n) rs) in
  state bf = MONITORING /\
  mean (firstn n (temps_of rs)) = inr (baseline_temp bf) /\
  dynamic_threshold bf = fscale THRESHOLD_FACTOR (baseline_temp bf).
Proof.
  intros Hn Hl. destruct (session_split n rs Hn Hl) as (m & Hm & Hs).
  simpl in Hs. rewrite Hs. simpl. auto.
Qed.

(** C15. The history is a FIFO of capacity 20: after a session it holds
    the last 20 temperatures of the monitoring phase, oldest first. *)
Theorem history_last_20 n rs :
  1 <= n -> n <= length rs ->
  Deque.dq_items (temp_history (snd (run (fresh n) rs))) = (skipn n (temps_of rs)).[-20:].
Proof.
  intros Hn Hl. destruct (session_split n rs Hn Hl) as (m & _ & Hs).
  simpl in Hs. rewrite Hs. simpl. exact (push_all_new (F := Deque.deque) 20 _).
Qed.

(** With a [nan] learned baseline (and so a [nan] threshold), the rule
    table can only answer FAULT or "System Stable". *)
Lemma classify_nan_params hard hist t :
  status (classify NaN hard NaN hist t) = FAULT \/ status (classify NaN hard NaN hist t) = NORMAL.
Proof.
  unfold classify, trend_fires, fgt. rewrite fadd_nan_l, !flt_nan_l, andb_false_r.
  destruct (flt hard t); auto.
Qed.

(** C27 (finding). One [nan] among the calibration samples, which
    [json.loads] accepts from the serial line, makes the baseline and the
    threshold [nan]: for the rest of the session the deviation and trend
    rules never fire, and only the hard limit is left. *)
Theorem nan_sample_disables_soft_rules n rs i d :
  1 <= n -> n <= length rs -> In NaN (firstn n (temps_of rs)) ->
  nth_error (fst (run (fresh n) rs)) i = Some d -> n <= i ->
  status d = FAULT \/ status d = NORMAL.
Proof.
  intros Hn Hl Hnan Hi Hle. destruct (session_split n rs Hn Hl) as (m & Hm & Hs).
  simpl in Hs. rewrite Hs in Hi. simpl in Hi.
  rewrite mean_nan in Hm by exact Hnan. injection Hm as <-.
  rewrite nth_error_app2 in Hi by (unfold learning_run; rewrite length_map, length_seq; lia).
  apply nth_error_In in Hi.
  edestruct run_monitoring as [Hd _]; [|apply Hd in Hi as (hist & t & ->)]; [reflexivity|].
  apply classify_nan_params.
Qed.

(** ** Witnesses *)

Definition demo_readings : list reading :=
  [reading_of 40 5 1; reading_of 42 5 1; reading_of 41 5 1; reading_of 50 5 1;
   reading_of 85 5 1].

Lemma learning_exactly_first_witness :
  nth_error (fst (run (fresh 3) demo_readings)) 2 = Some (learning 3 3) /\
  (status (learning 3 3) = LEARNING <-> 2 < 3).
Proof.
  split; [reflexivity|].
  apply (proj2 (learning_exactly_first 3 demo_readings ltac:(lia))). reflexivity.
Defined.

(** Scenario A: the baseline is the mean of 40, 42, 41. *)
Lemma baseline_is_mean_witness :
  let bf := snd (run (fresh 3) demo_readings) in
  state bf = MONITORING /\
  mean (firstn 3 (temps_of demo_readings)) = inr (baseline_temp bf) /\
  dynamic_threshold bf = fscale THRESHOLD_FACTOR (baseline_temp bf).
Proof. apply baseline_is_mean; simpl; lia. Defined.

Lemma history_last_20_witness :
  Deque.dq_items (temp_history (snd (run (fresh 3) demo_readings))) = [Fin 50; Fin 85].
Proof. rewrite history_last_20 by (simpl; lia). reflexivity. Defined.

Definition nan_readings : list reading :=
  [reading_of 40 5 1; mk_reading (Some NaN) (Some (Fin 5)) (Some (Fin 1));
   reading_of 41 5 1; reading_of 60 5 1; reading_of 90 5 1].

(** 60 would be far above any finite threshold learned from 40 and 41,
    yet the answer is "System Stable". *)
Lemma nan_sample_disables_soft_rules_witness :
  nth_error (fst (run (fresh 3) nan_readings)) 3 = Some default_result /\
  (status default_result = FAULT \/ status default_result = NORMAL).
Proof.
  split; [reflexivity|].
  apply (nan_sample_disables_soft_rules 3 nan_readings 3); simpl; auto; lia.
Defined.

End Session.
