(* ===== verification/Hardware.v ===== *)
(** The reading source, class [HardwareInterface] of
    src/hardware_interface.py.

    The object's attributes are the record [HardwareInterface]; the serial
    connection ([serial.Serial]) is a record holding the port's name, its
    baud rate and the lines written to it.  What the environment decides is
    an input of the operation that meets it: whether the port opens
    ([connect]), what the port delivers when read ([serial_read]:
    nothing waiting, a line, or an exception), and the two values of
    [random.uniform] ([noise_t], [noise_v]).  [generate_simulated_data] is
    [_generate_simulated_data]: the heating/cooling step of lines 66-75 on
    exact rationals, then Python's [round(x, 2)] (round half to even on
    the exact value).  [connection.write] in [send_command] is taken to
    succeed: a [SerialException] raised by a write (which would end the
    control loop after the commands before it) is not modelled.  The prints
    and [time.sleep] are not modelled. *)

From Stdlib Require Import QArith Qround Lqa Lia ZArith List String Bool.
From S2P Require Import Prelude PyFloat Reading.
Import ListNotations.

Module Hardware.

(** A [serial.Serial] object: the port it was opened on and what
    [send_command] wrote to it. *)
Record serial_port : Type := mk_serial {
  sp_port : string;
  sp_baud : Z;
  sp_tx : list Action
}.

Record HardwareInterface : Type := mk_hw {
  port : string;
  baud_rate : Z;
  connection : option serial_port;
  is_connected : bool;
  sim_temp : Q;
  sim_volt : Q;
  sim_curr : Q;
  fault_active : bool
}.

(** [HardwareInterface.__init__(port, baud_rate)] (lines 7-19). *)
Definition init (p : string) (baud : Z) : HardwareInterface :=
  mk_hw p baud None false 45 5 (6 # 5) false.

(** What one read of the port yields (lines 38-44). *)
Inductive serial_line : Type :=
| Blank                          (* an empty line after [.strip()] *)
| JsonObject (r : reading)       (* [json.loads] returned a dict *)
| Undecodable.                   (* [.decode] or [json.loads] raised *)

Inductive serial_read : Type :=
| NothingWaiting                 (* [in_waiting == 0] *)
| LineRead (l : serial_line)     (* [readline()] returned a line *)
| SerialError.                   (* [in_waiting] or [readline] raised *)

(** ** Python's [round(x, 2)] *)

Definition round2 (x : Q) : Q := inject_Z (round_half_even (x * 100)) / 100.

(** ** The simulator (lines 62-85) *)

(** The physics step of lines 66-75. *)
Definition sim_physics (fault : bool) (t : Q) : Q :=
  if fault then
    if Qltb t 95 then t + (3 # 2) else t
  else if Qltb 45 t then t - (4 # 5)
  else if Qltb t 45 then t + (1 # 2)
  else t.

(** [_generate_simulated_data], with the draws of [random.uniform(-0.3, 0.3)]
    and [random.uniform(-0.05, 0.05)] as inputs. *)
Definition generate_simulated_data (hw : HardwareInterface) (noise_t noise_v : Q)
  : reading * HardwareInterface :=
  let t := sim_physics (fault_active hw) (sim_temp hw) in
  let hw' := mk_hw (port hw) (baud_rate hw) (connection hw) (is_connected hw)
                   t (sim_volt hw) (sim_curr hw) (fault_active hw) in
  (mk_reading (Some (Fin (round2 (t + noise_t))))
              (Some (Fin (round2 (sim_volt hw + noise_v))))
              (Some (Fin (round2 (sim_curr hw)))),
   hw').

(** [random.uniform(a, b)] draws in [[a, b]]. *)
Definition noise_ok (noise_t noise_v : Q) : Prop :=
  -(3 # 10) <= noise_t <= 3 # 10 /\ -(1 # 20) <= noise_v <= 1 # 20.

(** ** The operations *)

(** [connect] (lines 21-32): [opens] says whether [serial.Serial] succeeds. *)
Definition connect (hw : HardwareInterface) (opens : bool) : bool * HardwareInterface :=
  if opens then
    (true, mk_hw (port hw) (baud_rate hw) (Some (mk_serial (port hw) (baud_rate hw) []))
                 true (sim_temp hw) (sim_volt hw) (sim_curr hw) (fault_active hw))
  else
    (false, mk_hw (port hw) (baud_rate hw) (connection hw) false
                  (sim_temp hw) (sim_volt hw) (sim_curr hw) (fault_active hw)).

(** [get_data] (lines 34-46): a decoded JSON object when connected and a
    line is there, the simulator in every other case. *)
Definition get_data (hw : HardwareInterface) (rd : serial_read) (noise_t noise_v : Q)
  : reading * HardwareInterface :=
  match is_connected hw, connection hw, rd with
  | true, Some _, LineRead (JsonObject r) => (r, hw)
  | _, _, _ => generate_simulated_data hw noise_t noise_v
  end.

(** Where a command goes (lines 48-60). *)
Inductive command_effect : Type :=
| SentToUsb (a : Action)         (* [connection.write(f"{command}\n".encode())] *)
| PrintedAction (a : Action).    (* simulation mode: printed only *)

Definition send_command (hw : HardwareInterface) (a : Action)
  : command_effect * HardwareInterface :=
  match is_connected hw, connection hw with
  | true, Some sp =>
      (SentToUsb a,
       mk_hw (port hw) (baud_rate hw) (Some (mk_serial (sp_port sp) (sp_baud sp) (sp_tx sp ++ [a])))
             (is_connected hw) (sim_temp hw) (sim_volt hw) (sim_curr hw) (fault_active hw))
  | _, _ => (PrintedAction a, hw)
  end.

(** [inject_sim_fault] (lines 87-90). *)
Definition inject_sim_fault (hw : HardwareInterface) : bool * HardwareInterface :=
  let f := negb (fault_active hw) in
  (f, mk_hw (port hw) (baud_rate hw) (connection hw) (is_connected hw)
            (sim_temp hw) (sim_volt hw) (sim_curr hw) f).

(** Every operation the rest of the program applies to the object. *)
Inductive hw_step : HardwareInterface -> HardwareInterface -> Prop :=
| step_connect hw opens : hw_step hw (snd (connect hw opens))
| step_get_data hw rd nt nv :
    noise_ok nt nv -> hw_step hw (snd (get_data hw rd nt nv))
| step_send hw a : hw_step hw (snd (send_command hw a))
| step_inject hw : hw_step hw (snd (inject_sim_fault hw)).

Inductive hw_reachable (p : string) (baud : Z) : HardwareInterface -> Prop :=
| hw_reach_init : hw_reachable p baud (init p baud)
| hw_reach_step hw hw' : hw_reachable p baud hw -> hw_step hw hw' -> hw_reachable p baud hw'.

(** The simulated temperature after [k] heating or cooling steps. *)
Fixpoint sim_iter (fault : bool) (k : nat) (t : Q) : Q :=
  match k with
  | O => t
  | S k' => sim_iter fault k' (sim_physics fault t)
  end.

(** Successive calls of [get_data], each with what the port delivers and
    the two noise draws of that call. *)
Fixpoint poll (hw : HardwareInterface) (ins : list (serial_read * Q * Q))
  : list reading * HardwareInterface :=
  match ins with
  | [] => ([], hw)
  | (rd, nt, nv) :: ins' =>
      let '(r, hw1) := get_data hw rd nt nv in
      let '(rs, hw2) := poll hw1 ins' in
      (r :: rs, hw2)
  end.

(** The port did not deliver a JSON object. *)
Definition no_json (rd : serial_read) : bool :=
  match rd with
  | LineRead (JsonObject _) => false
  | _ => true
  end.

(** ** Rounding *)

Lemma round_half_even_bounds y :
  y - (1 # 2) <= inject_Z (round_half_even y) <= y + (1 # 2).
Proof.
  unfold round_half_even.
  pose proof (Qfloor_le y) as Hl. pose proof (Qlt_floor y) as Hu.
  rewrite inject_Z_plus in Hu. change (inject_Z 1) with 1 in Hu. set (f := Qfloor y) in *.
  destruct (Qltb_spec (y - inject_Z f) (1 # 2)); [lra|].
  destruct (Qltb_spec (1 # 2) (y - inject_Z f)).
  - rewrite inject_Z_plus. change (inject_Z 1) with 1. lra.
  - destruct (Z.even f); [lra|]. rewrite inject_Z_plus. change (inject_Z 1) with 1. lra.
Qed.

(** [round(x, 2)] moves [x] by at most half a hundredth. *)
Lemma round2_bounds x : x - (1 # 200) <= round2 x <= x + (1 # 200).
Proof.
  unfold round2, Qdiv. change (/ 100) with (1 # 100). pose proof (round_half_even_bounds (x * 100)). lra.
Qed.

(** ** The simulated temperature *)

(** The open band [44.2, 96.5] of simulated temperatures. *)
Definition in_sim_range (t : Q) : Prop := 221 # 5 < t < 193 # 2.

Lemma sim_physics_range fault t : in_sim_range t -> in_sim_range (sim_physics fault t).
Proof.
  unfold in_sim_range, sim_physics. intros H.
  destruct fault;
    repeat match goal with |- context [Qltb ?a ?b] => destruct (Qltb_spec a b) end; lra.
Qed.

Lemma generate_simulated_data_temp hw nt nv :
  sim_temp (snd (generate_simulated_data hw nt nv)) = sim_physics (fault_active hw) (sim_temp hw).
Proof. reflexivity. Qed.

(** What the reachable objects satisfy: the simulated temperature stays
    in the band, voltage and current stay at their initial values. *)
Definition hw_inv (hw : HardwareInterface) : Prop :=
  in_sim_range (sim_temp hw) /\ sim_volt hw = 5 /\ sim_curr hw = 6 # 5.

Lemma hw_step_inv hw hw' : hw_inv hw -> hw_step hw hw' -> hw_inv hw'.
Proof.
  intros Hinv Hs. destruct Hs as [hw opens|hw rd nt nv _|hw a|hw];
    destruct Hinv as (Ht & Hv & Hc); unfold hw_inv.
  - destruct opens; simpl; (split; [|split]); assumption.
  - unfold get_data.
    destruct (is_connected hw), (connection hw); destruct rd as [|[|r|]|]; simpl;
      (split; [|split]); auto using sim_physics_range.
  - unfold send_command. destruct (is_connected hw), (connection hw); simpl;
      (split; [|split]); assumption.
  - simpl. (split; [|split]); assumption.
Qed.

Lemma hw_reachable_inv p baud hw : hw_reachable p baud hw -> hw_inv hw.
Proof.
  induction 1 as [|hw hw' _ IH Hs]; [|eapply hw_step_inv; eassumption].
  unfold hw_inv, in_sim_range; simpl. repeat split; lra.
Qed.

(** C21. The simulated temperature of every reachable object stays
    strictly between 44.2 and 96.5, whatever the operations and the noise. *)
Theorem sim_temp_bounded p baud hw :
  hw_reachable p baud hw -> 221 # 5 < sim_temp hw < 193 # 2.
Proof. intros H. apply (hw_reachable_inv p baud hw H). Qed.

(** The temperature a simulated reading reports is within 0.305 of the
    new simulated temperature. *)
Lemma simulated_reading_temp hw nt nv :
  noise_ok nt nv ->
  exists q, r_temp (fst (generate_simulated_data hw nt nv)) = Some (Fin q) /\
    sim_temp (snd (generate_simulated_data hw nt nv)) - (61 # 200) <= q /\
    q <= sim_temp (snd (generate_simulated_data hw nt nv)) + (61 # 200).
Proof.
  intros [[Hl Hu] _]. eexists. split; [reflexivity|]. simpl.
  pose proof (round2_bounds (sim_physics (fault_active hw) (sim_temp hw) + nt)). lra.
Qed.

(** ** Heating and cooling *)

Lemma sim_iter_S fault k t : sim_iter fault (S k) t = sim_iter fault k (sim_physics fault t).
Proof. reflexivity. Qed.

Lemma sim_iter_succ_r fault k t : sim_iter fault (S k) t = sim_physics fault (sim_iter fault k t).
Proof. revert t. induction k as [|k IH]; intros t; [reflexivity|]. exact (IH (sim_physics fault t)). Qed.

Lemma inject_Z_of_nat_S k : inject_Z (Z.of_nat (S k)) == inject_Z (Z.of_nat k) + 1.
Proof. rewrite Nat2Z.inj_succ, <- Z.add_1_r, inject_Z_plus. reflexivity. Qed.

(** Once at 95 or above, heating holds the temperature there. *)
Lemma heating_stays k t : 95 <= t -> 95 <= sim_iter true k t.
Proof.
  revert t. induction k as [|k IH]; intros t H; [exact H|].
  rewrite sim_iter_S. apply IH. unfold sim_physics.
  destruct (Qltb_spec t 95); lra.
Qed.

(** Heating gains 1.5 per step until it reaches 95. *)
Lemma heating_reaches k t :
  95 <= t + (3 # 2) * inject_Z (Z.of_nat k) -> 95 <= sim_iter true k t.
Proof.
  revert t. induction k as [|k IH]; intros t H.
  - cbn [sim_iter]. change (inject_Z (Z.of_nat 0)) with 0 in H. lra.
  - rewrite sim_iter_S. rewrite inject_Z_of_nat_S in H. unfold sim_physics.
    destruct (Qltb_spec t 95).
    + apply IH. lra.
    + apply heating_stays. lra.
Qed.

(** The band [44.2, 45.5] is where cooling settles. *)
Definition in_rest_band (t : Q) : Prop := 221 # 5 < t < 91 # 2.

Lemma cooling_band t : in_rest_band t -> in_rest_band (sim_physics false t).
Proof.
  unfold in_rest_band, sim_physics. intros H.
  repeat match goal with |- context [Qltb ?a ?b] => destruct (Qltb_spec a b) end; lra.
Qed.

Lemma cooling_stays k t : in_rest_band t -> in_rest_band (sim_iter false k t).
Proof.
  revert t. induction k as [|k IH]; intros t H; [exact H|].
  rewrite sim_iter_S. apply IH, cooling_band, H.
Qed.

(** Cooling loses 0.8 per step until the temperature is in the band. *)
Lemma cooling_reaches k t :
  221 # 5 < t -> t < (91 # 2) + (4 # 5) * inject_Z (Z.of_nat k) ->
  in_rest_band (sim_iter false k t).
Proof.
  revert t. induction k as [|k IH]; intros t Hl Hu.
  - cbn [sim_iter]. change (inject_Z (Z.of_nat 0)) with 0 in Hu. unfold in_rest_band. lra.
  - rewrite inject_Z_of_nat_S in Hu.
    destruct (Qlt_le_dec t (91 # 2)).
    + apply cooling_stays. unfold in_rest_band. lra.
    + rewrite sim_iter_S. apply IH; unfold sim_physics;
        destruct (Qltb_spec 45 t); try lra.
Qed.

(** From the band, a reading taken after at least 34 heating steps
    reports above 80: the simulator is at 95, and the noise and the
    rounding take off at most 0.305. *)
Lemma heated_above_80 nt nv i t :
  221 # 5 < t -> noise_ok nt nv -> (33 <= i)%nat -> 80 < round2 (sim_iter true (S i) t + nt).
Proof.
  intros Hlo [[Hl Hu] _] Hle.
  assert (H95 : 95 <= sim_iter true (S i) t).
  { apply heating_reaches.
    assert (Hz : (34 <= Z.of_nat (S i))%Z) by lia.
    rewrite Zle_Qle in Hz. change (inject_Z 34) with 34 in Hz. lra. }
  pose proof (round2_bounds (sim_iter true (S i) t + nt)). lra.
Qed.

(** From the band, a reading taken after at least 64 cooling steps
    reports below 46: the simulator is in (44.2, 45.5), and the noise and
    the rounding add at most 0.305. *)
Lemma cooled_below_46 nt nv i t :
  221 # 5 < t < 193 # 2 -> noise_ok nt nv -> (63 <= i)%nat -> round2 (sim_iter false (S i) t + nt) < 46.
Proof.
  intros [Hlo Hhi] [[Hl Hu] _] Hle.
  assert (Hb : in_rest_band (sim_iter false (S i) t)).
  { apply cooling_reaches; [exact Hlo|].
    assert (Hz : (64 <= Z.of_nat (S i))%Z) by lia.
    rewrite Zle_Qle in Hz. change (inject_Z 64) with 64 in Hz. lra. }
  destruct Hb as [_ Hb]. pose proof (round2_bounds (sim_iter false (S i) t + nt)). lra.
Qed.

(** ** Falling back to the simulator *)

(** Whenever the port does not deliver a JSON object (nothing waiting, a
    blank or undecodable line, a serial exception), [get_data] returns
    the simulator's reading, connected or not. *)
Lemma get_data_fallback hw rd nt nv :
  no_json rd = true -> get_data hw rd nt nv = generate_simulated_data hw nt nv.
Proof.
  intros H. unfold get_data.
  destruct (is_connected hw), (connection hw); try reflexivity.
  destruct rd as [|[|r|]|]; easy.
Qed.

(** The [i]-th reading of a poll without JSON lines is the simulator's
    after [i+1] physics steps. *)
Lemma poll_simulated hw ins i r :
  forallb (fun '(rd, _, _) => no_json rd) ins = true ->
  nth_error (fst (poll hw ins)) i = Some r ->
  exists rd nt nv, In (rd, nt, nv) ins /\
    r_temp r = Some (Fin (round2 (sim_iter (fault_active hw) (S i) (sim_temp hw) + nt))).
Proof.
  revert hw i. induction ins as [|[[rd nt] nv] ins IH]; intros hw i Hj Hi; [destruct i; discriminate|].
  simpl in Hj. apply andb_true_iff in Hj as [Hrd Hj]. simpl in Hi.
  rewrite get_data_fallback in Hi by exact Hrd.
  destruct (generate_simulated_data hw nt nv) as [r0 hw1] eqn:Hg.
  destruct (poll hw1 ins) as [rs hw2] eqn:Hp. destruct i as [|i]; simpl in Hi.
  - injection Hi as <-. exists rd, nt, nv. split; [now left|].
    unfold generate_simulated_data in Hg. now injection Hg as <- _.
  - destruct (IH hw1 i Hj) as (rd' & nt' & nv' & Hin & Ht).
    + now rewrite Hp.
    + exists rd', nt', nv'. split; [now right|]. rewrite Ht.
      unfold generate_simulated_data in Hg. now injection Hg as _ <-.
Qed.

(** C19 (liveness). With the overheat fault injected, from any reachable
    object, every reading from the 34th call of [get_data] on reports a
    temperature above 80 as long as the port delivers no JSON object:
    the simulator heats 1.5 per call from above 44.2 and the noise and
    rounding take off at most 0.305.  This holds in hardware mode too,
    where the fallback makes the simulator's heating the reported data. *)
Theorem overheat_readings_above_80 p baud hw ins i r :
  hw_reachable p baud hw -> fault_active hw = true ->
  forallb (fun '(rd, _, _) => no_json rd) ins = true ->
  Forall (fun '(_, nt, nv) => noise_ok nt nv) ins ->
  (33 <= i)%nat -> nth_error (fst (poll hw ins)) i = Some r ->
  exists q, r_temp r = Some (Fin q) /\ 80 < q.
Proof.
  intros Hr Hf Hj Hn Hle Hi.
  destruct (poll_simulated hw ins i r Hj Hi) as (rd & nt & nv & Hin & Ht).
  rewrite Hf in Ht. eexists. split; [exact Ht|].
  rewrite Forall_forall in Hn. apply (heated_above_80 nt nv); [|exact (Hn _ Hin)|exact Hle].
  apply (hw_reachable_inv p baud hw Hr).
Qed.

(** C20 (liveness). With the fault cleared, 64 simulator steps bring any
    reachable temperature into the resting band (44.2, 45.5), where it
    stays. *)
Theorem cooling_settles p baud hw k :
  hw_reachable p baud hw -> (64 <= k)%nat -> in_rest_band (sim_iter false k (sim_temp hw)).
Proof.
  intros Hr Hk. pose proof (proj1 (hw_reachable_inv p baud hw Hr)) as [Hlo Hhi].
  apply cooling_reaches; [exact Hlo|].
  assert (Hz : (64 <= Z.of_nat k)%Z) by lia.
  rewrite Zle_Qle in Hz. change (inject_Z 64) with 64 in Hz. lra.
Qed.

(** ** Witnesses: the dashboard's object on COM3, fault injected. *)

Definition demo_hw : HardwareInterface := snd (inject_sim_fault (init "COM3" 9600)).

Lemma sim_temp_bounded_witness : 221 # 5 < sim_temp demo_hw < 193 # 2.
Proof.
  apply (sim_temp_bounded "COM3" 9600).
  eapply hw_reach_step; [apply hw_reach_init | apply step_inject].
Defined.

(** In hardware mode with nothing waiting on the port, the 34th reading
    is already above 80 (96.00 after rounding). *)
Definition demo_hot_reading : reading :=
  mk_reading (Some (Fin (9600 # 100))) (Some (Fin (500 # 100))) (Some (Fin (120 # 100))).

Lemma overheat_readings_above_80_witness :
  nth_error (fst (poll (snd (connect demo_hw true)) (repeat (NothingWaiting, 0, 0) 34))) 33
    = Some demo_hot_reading /\
  exists q, r_temp demo_hot_reading = Some (Fin q) /\ 80 < q.
Proof.
  split; [vm_compute; reflexivity|].
  apply (overheat_readings_above_80 "COM3" 9600 (snd (connect demo_hw true))
           (repeat (NothingWaiting, 0, 0) 34) 33).
  - eapply hw_reach_step; [|apply step_connect].
    eapply hw_reach_step; [apply hw_reach_init | apply step_inject].
  - reflexivity.
  - vm_compute. reflexivity.
  - repeat constructor; unfold noise_ok; lra.
  - lia.
  - vm_compute. reflexivity.
Defined.

Lemma cooling_settles_witness : in_rest_band (sim_iter false 64 (sim_temp (init "COM3" 9600))).
Proof. apply (cooling_settles "COM3" 9600); [apply hw_reach_init | lia]. Defined.

End Hardware.
