(* ===== verification/Database.v ===== *)
(** Persistence, src/database_manager.py, as the SQLite database file
    [agentic_system.db] it manipulates.

    The database is a record: the two tables [readings] and [events]
    ([None] until [init_db] has created them) as lists of rows with their
    [INTEGER PRIMARY KEY AUTOINCREMENT] ids, and SQLite's internal table
    [sqlite_sequence] as a map from table name to the largest id ever
    handed out ([gmap string nat]).  An [INSERT] takes the id one above
    both that value and the largest id present, as SQLite's AUTOINCREMENT
    does, and records it; [clear_db] deletes the rows and the two sequence
    entries.  [ORDER BY id DESC LIMIT n] is a sort by id followed by
    [firstn]; pandas' frame is the list of rows it holds.  The wall clock
    ([datetime.now()]) is an input.  A statement on a table that does not
    exist raises [sqlite3.OperationalError]: the [inl] outcome. *)

From Stdlib Require Import Sorted QArith.
From stdpp Require Import base gmap strings list.
From S2P Require Import Prelude PyFloat Reading.

Module Database.

(** A row of [readings]: [timestamp, temperature, voltage, current]. *)
Record reading_row : Type := mk_reading_row {
  rr_timestamp : string;
  rr_temperature : pyfloat;
  rr_voltage : pyfloat;
  rr_current : pyfloat
}.

(** A row of [events]: [timestamp, event_type, message]; the event type is
    a decision's status and the message its reason. *)
Record event_row : Type := mk_event_row {
  er_timestamp : string;
  er_event_type : Status;
  er_message : Reason
}.

Record db : Type := mk_db {
  readings : option (list (nat * reading_row));
  events : option (list (nat * event_row));
  sqlite_sequence : gmap string nat
}.

Inductive db_error : Type :=
| OperationalError.              (* "no such table" *)

(** A database file that does not exist yet. *)
Definition empty_db : db := mk_db None None ∅.

Section Table.
Context {R : Type}.

Fixpoint max_id (rs : list (nat * R)) : nat :=
  match rs with
  | [] => 0
  | (i, _) :: t => Nat.max i (max_id t)
  end.

(** The id AUTOINCREMENT gives a new row. *)
Definition next_rowid (seq : option nat) (rs : list (nat * R)) : nat :=
  S (Nat.max (default 0 seq) (max_id rs)).

(** One step of [ORDER BY id DESC]: insertion by decreasing id. *)
Fixpoint insert_desc (x : nat * R) (l : list (nat * R)) : list (nat * R) :=
  match l with
  | [] => [x]
  | y :: t => if Nat.ltb y.1 x.1 then x :: y :: t else y :: insert_desc x t
  end.

Definition order_by_id_desc (rs : list (nat * R)) : list (nat * R) :=
  foldr insert_desc [] rs.

(** [SELECT * FROM t ORDER BY id DESC LIMIT n] *)
Definition select_recent (n : nat) (rs : list (nat * R)) : list (nat * R) :=
  take n (order_by_id_desc rs).

End Table.

(** [init_db] (lines 7-30): [CREATE TABLE IF NOT EXISTS] for both tables. *)
Definition init_db (d : db) : db :=
  mk_db (Some (default [] (readings d))) (Some (default [] (events d))) (sqlite_sequence d).

(** [clear_db] (lines 32-46). *)
Definition clear_db (d : db) : db_error + db :=
  match readings d, events d with
  | Some _, Some _ =>
      inr (mk_db (Some []) (Some [])
                 (delete "events" (delete "readings" (sqlite_sequence d))))
  | _, _ => inl OperationalError
  end.

(** [log_data(temp, voltage, current)] (lines 48-56), at time [now]. *)
Definition log_data (now : string) (temp voltage current : pyfloat) (d : db) : db_error + db :=
  match readings d with
  | Some rs =>
      let id := next_rowid (sqlite_sequence d !! "readings") rs in
      inr (mk_db (Some (rs ++ [(id, mk_reading_row now temp voltage current)])) (events d)
                 (<["readings" := id]> (sqlite_sequence d)))
  | None => inl OperationalError
  end.

(** [log_event(event_type, message)] (lines 58-66), at time [now]. *)
Definition log_event (now : string) (event_type : Status) (message : Reason) (d : db)
  : db_error + db :=
  match events d with
  | Some es =>
      let id := next_rowid (sqlite_sequence d !! "events") es in
      inr (mk_db (readings d) (Some (es ++ [(id, mk_event_row now event_type message)]))
                 (<["events" := id]> (sqlite_sequence d)))
  | None => inl OperationalError
  end.

(** [get_recent_readings(limit)] (lines 68-73): newest [limit] rows, then
    [df.iloc[::-1]] puts them oldest first. *)
Definition get_recent_readings (limit : nat) (d : db) : db_error + list (nat * reading_row) :=
  match readings d with
  | Some rs => inr (reverse (select_recent limit rs))
  | None => inl OperationalError
  end.

(** [get_recent_events(limit)] (lines 75-80): newest first. *)
Definition get_recent_events (limit : nat) (d : db) : db_error + list (nat * event_row) :=
  match events d with
  | Some es => inr (select_recent limit es)
  | None => inl OperationalError
  end.

(** Well-formed table: ids strictly increasing in storage order, none
    above the recorded sequence value. *)
Definition table_wf {R} (seqv : option nat) (rs : list (nat * R)) : Prop :=
  StronglySorted lt (map fst rs) /\ max_id rs <= default 0 seqv.

Definition db_wf (d : db) : Prop :=
  (forall rs, readings d = Some rs -> table_wf (sqlite_sequence d !! "readings") rs) /\
  (forall es, events d = Some es -> table_wf (sqlite_sequence d !! "events") es).

(** Every statement database_manager.py issues. *)
Inductive db_step : db -> db -> Prop :=
| db_init d : db_step d (init_db d)
| db_clear d d' : clear_db d = inr d' -> db_step d d'
| db_log_data now t v c d d' : log_data now t v c d = inr d' -> db_step d d'
| db_log_event now ty m d d' : log_event now ty m d = inr d' -> db_step d d'.

Inductive db_reachable : db -> Prop :=
| db_reach_empty : db_reachable empty_db
| db_reach_step d d' : db_reachable d -> db_step d d' -> db_reachable d'.

(** ** Tables *)

Section TableFacts.
Context {R : Type}.
Implicit Types (rs : list (nat * R)).

Lemma max_id_ge rs i r : In (i, r) rs -> i <= max_id rs.
Proof.
  induction rs as [|[j r'] t IH]; simpl; [easy|].
  intros [Heq | Hin]; [injection Heq as -> _; lia | specialize (IH Hin); lia].
Qed.

Lemma max_id_snoc rs x : max_id (rs ++ [x]) = Nat.max (max_id rs) x.1.
Proof. induction rs as [|[j r'] t IH]; destruct x; simpl; [lia|]. rewrite IH. simpl. lia. Qed.

Lemma sorted_snoc rs x :
  StronglySorted lt (map fst rs) -> max_id rs < x.1 ->
  StronglySorted lt (map fst (rs ++ [x])).
Proof.
  induction rs as [|[j r'] t IH]; simpl; intros Hs Hlt.
  - repeat constructor.
  - inversion Hs as [|? ? Ht Hf]; subst. constructor.
    + apply IH; [exact Ht | lia].
    + rewrite map_app. apply Forall_app. split; [exact Hf|]. constructor; [simpl; lia | constructor].
Qed.

Lemma insert_desc_last x (l : list (nat * R)) :
  Forall (fun y => x.1 < y.1) l -> insert_desc x l = l ++ [x].
Proof.
  induction l as [|y t IH]; simpl; [easy|]. intros Hf. inversion Hf; subst.
  destruct (Nat.ltb_spec y.1 x.1); [lia|]. now rewrite IH.
Qed.

(** [ORDER BY id DESC] on a well-formed table is the reverse of the
    storage order. *)
Lemma order_by_id_desc_rev rs :
  StronglySorted lt (map fst rs) -> order_by_id_desc rs = reverse rs.
Proof.
  induction rs as [|x t IH]; intros Hs; [reflexivity|].
  simpl in Hs. inversion Hs as [|? ? Ht Hf]; subst.
  unfold order_by_id_desc in *. simpl. rewrite IH by exact Ht.
  rewrite reverse_cons. apply insert_desc_last.
  apply Forall_reverse. exact (proj1 (@Forall_map _ _ fst (lt x.1) t) Hf).
Qed.

Lemma table_wf_snoc seqv rs r :
  table_wf seqv rs ->
  table_wf (Some (next_rowid seqv rs)) (rs ++ [(next_rowid seqv rs, r)]).
Proof.
  unfold table_wf, next_rowid. intros [Hs Hm]. split.
  - apply sorted_snoc; [exact Hs | simpl; lia].
  - rewrite max_id_snoc. simpl. lia.
Qed.

Lemma table_wf_nil seqv : table_wf seqv (@nil (nat * R)).
Proof. split; [constructor | simpl; lia]. Qed.

End TableFacts.

(** ** The database *)

Lemma init_db_wf d : db_wf d -> db_wf (init_db d).
Proof.
  intros [Hr He]. split; simpl; intros rs [= <-].
  - destruct (readings d); simpl; [now apply Hr | apply table_wf_nil].
  - destruct (events d); simpl; [now apply He | apply table_wf_nil].
Qed.

Lemma clear_db_wf d d' : clear_db d = inr d' -> db_wf d'.
Proof.
  unfold clear_db. destruct (readings d), (events d); intros [= <-].
  split; simpl; intros rs [= <-]; apply table_wf_nil.
Qed.

Lemma log_data_wf now t v c d d' : db_wf d -> log_data now t v c d = inr d' -> db_wf d'.
Proof.
  intros [Hr He]. unfold log_data. destruct (readings d) as [rs|] eqn:E; [|discriminate].
  intros [= <-]. split; simpl.
  - intros rs' [= <-]. rewrite lookup_insert_eq. apply table_wf_snoc, Hr; first [exact E | reflexivity].
  - intros es Hes. rewrite lookup_insert_ne by done. now apply He.
Qed.

Lemma log_event_wf now ty m d d' : db_wf d -> log_event now ty m d = inr d' -> db_wf d'.
Proof.
  intros [Hr He]. unfold log_event. destruct (events d) as [es|] eqn:E; [|discriminate].
  intros [= <-]. split; simpl.
  - intros rs Hrs. rewrite lookup_insert_ne by done. now apply Hr.
  - intros es' [= <-]. rewrite lookup_insert_eq. apply table_wf_snoc, He; first [exact E | reflexivity].
Qed.

(** C22. Every database the program can produce has, in each table,
    strictly increasing ids in storage order, none above the table's
    [sqlite_sequence] value. *)
Theorem db_reachable_wf d : db_reachable d -> db_wf d.
Proof.
  induction 1 as [|d d' _ IH Hs].
  - split; simpl; discriminate.
  - destruct Hs.
    + now apply init_db_wf.
    + eapply clear_db_wf; eassumption.
    + eapply log_data_wf; eassumption.
    + eapply log_event_wf; eassumption.
Qed.

Lemma select_recent_wf {R} seqv (rs : list (nat * R)) n :
  table_wf seqv rs -> select_recent n rs = take n (reverse rs).
Proof. intros [Hs _]. unfold select_recent. now rewrite order_by_id_desc_rev. Qed.

(** C23. [get_recent_events(n)] returns the last [n] events logged,
    newest first. *)
Theorem recent_events_newest_first d es n :
  db_wf d -> events d = Some es -> get_recent_events n d = inr (take n (reverse es)).
Proof.
  intros [_ He] E. unfold get_recent_events. rewrite E.
  f_equal. eapply select_recent_wf, He, E.
Qed.

(** C24. Round trip: right after [log_event], [get_recent_events(1)]
    returns exactly the event just logged (main.py relies on it to
    suppress repeated reasons). *)
Theorem log_event_then_latest now ty m d d' :
  db_wf d -> log_event now ty m d = inr d' ->
  exists id, get_recent_events 1 d' = inr [(id, mk_event_row now ty m)].
Proof.
  intros Hwf Hl. pose proof (log_event_wf _ _ _ _ _ Hwf Hl) as Hwf'.
  revert Hl. unfold log_event. destruct (events d) as [es|] eqn:E; [|discriminate].
  intros Hl. injection Hl as Hd'. subst d'. eexists.
  unfold get_recent_events. simpl.
  rewrite (select_recent_wf _ _ _ (proj2 Hwf' _ eq_refl)).
  rewrite reverse_snoc. reflexivity.
Qed.

(** C25. [clear_db] resets the AUTOINCREMENT counter: the next reading
    logged gets id 1 and is the only row. *)
Theorem clear_resets_ids now t v c d d' d'' :
  clear_db d = inr d' -> log_data now t v c d' = inr d'' ->
  readings d'' = Some [(1, mk_reading_row now t v c)].
Proof.
  unfold clear_db. destruct (readings d), (events d); intros [= <-]; try discriminate.
  unfold log_data. simpl. intros [= <-]. simpl.
  rewrite lookup_delete_ne by done. rewrite lookup_delete_eq. reflexivity.
Qed.

(** C26. [get_recent_readings(n)] (newest [n] rows, then reversed) is
    the last [n] rows, oldest first: the slice [rows[-n:]]. *)
Theorem recent_readings_oldest_first d rs n :
  db_wf d -> readings d = Some rs -> get_recent_readings n d = inr (rs.[-n:]).
Proof.
  intros [Hr _] E. unfold get_recent_readings. rewrite E.
  rewrite (select_recent_wf _ _ _ (Hr _ E)), take_reverse, reverse_involutive.
  reflexivity.
Qed.

(** ** Witnesses *)

Definition demo_event (id : nat) (r : Reason) : nat * event_row :=
  (id, mk_event_row "12:00:00" WARNING r).

Definition demo_reading (id : nat) (t : Q) : nat * reading_row :=
  (id, mk_reading_row "12:00:00" (Fin t) (Fin 5) (Fin 1)).

Definition demo_logged_db : db :=
  mk_db (Some [demo_reading 1 40; demo_reading 2 41; demo_reading 3 42])
        (Some [demo_event 1 Trend_Rapid_Heating; demo_event 2 (Abnormal_Deviation (Fin 49))])
        (<["events" := 2]> (<["readings" := 3]> ∅)).

Lemma demo_logged_db_wf : db_wf demo_logged_db.
Proof.
  split; intros ? [= <-]; split; simpl; try lia;
    repeat constructor; simpl; lia.
Qed.

Lemma db_reachable_wf_witness : db_wf (init_db empty_db).
Proof.
  apply db_reachable_wf. eapply db_reach_step; [apply db_reach_empty | apply db_init].
Defined.

Lemma recent_events_newest_first_witness :
  get_recent_events 1 demo_logged_db = inr [demo_event 2 (Abnormal_Deviation (Fin 49))].
Proof.
  rewrite (recent_events_newest_first demo_logged_db _ 1 demo_logged_db_wf eq_refl).
  reflexivity.
Defined.

Definition demo_after_log : db :=
  match log_event "12:00:05" FAULT (Critical_Overheat (Fin 85)) demo_logged_db with
  | inr d => d
  | inl _ => demo_logged_db
  end.

Lemma log_event_then_latest_witness :
  exists id, get_recent_events 1 demo_after_log
             = inr [(id, mk_event_row "12:00:05" FAULT (Critical_Overheat (Fin 85)))].
Proof.
  apply (log_event_then_latest "12:00:05" FAULT (Critical_Overheat (Fin 85)) demo_logged_db);
    [apply demo_logged_db_wf | reflexivity].
Defined.

Definition demo_cleared : db :=
  match clear_db demo_logged_db with inr d => d | inl _ => demo_logged_db end.

Lemma clear_resets_ids_witness :
  readings (match log_data "12:01:00" (Fin 45) (Fin 5) (Fin 1) demo_cleared with
            | inr d => d | inl _ => demo_cleared end)
  = Some [(1, mk_reading_row "12:01:00" (Fin 45) (Fin 5) (Fin 1))].
Proof.
  apply (clear_resets_ids "12:01:00" (Fin 45) (Fin 5) (Fin 1) demo_logged_db demo_cleared);
    reflexivity.
Defined.

Lemma recent_readings_oldest_first_witness :
  get_recent_readings 2 demo_logged_db = inr [demo_reading 2 41; demo_reading 3 42].
Proof.
  rewrite (recent_readings_oldest_first demo_logged_db _ 2 demo_logged_db_wf eq_refl).
  reflexivity.
Defined.

End Database.
