(* ===== verification/ControlLoop.v ===== *)
(** The control loop of src/main.py (lines 10-112), one tick at a time.

    The Streamlit session state ([st.session_state.hw], [.brain],
    [.running]) and the database file form the record [session];
    [page_setup] is what the first page load does before the loop (lines
    10-21).  What the environment decides in a tick is a [tick_input]:
    what the serial port delivers, the two noise draws and the wall-clock
    time.  [tick] is the body of the [while] loop: [hw.get_data],
    [brain.analyze], [hw.send_command] for every action in order,
    [db.log_data(data['temp'], data['volt'], data['curr'])] (a missing
    key raises [KeyError]), and, for a WARNING or FAULT decision,
    [db.log_event] unless the newest event already has the same message.
    An exception ends the loop with the state as mutated up to the raise
    ([TickCrashed]).  [session_step] adds the Start/Stop, Clear Database
    and Inject Overheat buttons and the reruns of the script.  The
    dashboard widgets, the two chart queries (read-only) and
    [time.sleep] are not modelled. *)

From Stdlib Require Import QArith Lqa List Arith Lia Bool String.
From stdpp Require Import base list.
From S2P Require Import Prelude PyFloat Deque Trend Reading AgentBrain BrainSpec Session Hardware Database.
Import ListNotations.
Import AgentBrain BrainSpec Session Hardware Database.

Module ControlLoop.

Record session : Type := mk_session {
  hw : HardwareInterface;
  brain : AgentBrain;
  dbf : db;
  running : bool                 (* [st.session_state.running] *)
}.

Record tick_input : Type := mk_tick_input {
  ti_serial : serial_read;
  ti_noise_t : Q;
  ti_noise_v : Q;
  ti_now : string
}.

Inductive loop_error : Type :=
| KeyError (key : string)
| DatabaseError (e : db_error)
| AnalyzeError (e : py_error).

Inductive tick_outcome : Type :=
| TickDone (d : decision) (effects : list command_effect) (s : session)
| TickCrashed (e : loop_error) (effects : list command_effect) (s : session).

(** Lines 10-18 on a page load: [db.init_db()], a [HardwareInterface] on
    COM3 that tries to [connect()], a fresh [AgentBrain]. *)
Definition page_setup (d : db) (port_opens : bool) : session :=
  mk_session (snd (connect (Hardware.init "COM3" 9600) port_opens)) AgentBrain.init (init_db d) false.

(** Lines 79-81: [for action in decision['actions']: hw.send_command(action)]. *)
Fixpoint send_all (h : HardwareInterface) (acts : list Action)
  : list command_effect * HardwareInterface :=
  match acts with
  | [] => ([], h)
  | a :: acts' =>
      let '(e, h1) := send_command h a in
      let '(es, h2) := send_all h1 acts' in
      (e :: es, h2)
  end.

(** [data[k]] *)
Definition require_key (k : string) (v : option pyfloat) : loop_error + pyfloat :=
  match v with
  | Some x => inr x
  | None => inl (KeyError k)
  end.

(** Lines 85-88: log WARNING and FAULT decisions whose reason is not the
    message of the newest event. *)
Definition log_decision (now : string) (d : decision) (dbase : db) : db_error + db :=
  match status d with
  | NORMAL | LEARNING => inr dbase
  | _ =>
      match get_recent_events 1 dbase with
      | inl e => inl e
      | inr [] => log_event now (status d) (reason d) dbase
      | inr ((_, row) :: _) =>
          if reason_eqb (er_message row) (reason d) then inr dbase
          else log_event now (status d) (reason d) dbase
      end
  end.

(** The body of the loop (lines 76-88). *)
Definition tick (s : session) (i : tick_input) : tick_outcome :=
  let '(data, h1) := get_data (hw s) (ti_serial i) (ti_noise_t i) (ti_noise_v i) in
  match analyze (brain s) data with
  | Raised e b1 => TickCrashed (AnalyzeError e) [] (mk_session h1 b1 (dbf s) (running s))
  | Returned d b1 =>
      let '(effs, h2) := send_all h1 (actions d) in
      let s2 := mk_session h2 b1 (dbf s) (running s) in
      match require_key "temp" (r_temp data) with
      | inl e => TickCrashed e effs s2
      | inr t =>
      match require_key "volt" (r_volt data) with
      | inl e => TickCrashed e effs s2
      | inr v =>
      match require_key "curr" (r_curr data) with
      | inl e => TickCrashed e effs s2
      | inr c =>
      match log_data (ti_now i) t v c (dbf s) with
      | inl e => TickCrashed (DatabaseError e) effs s2
      | inr db1 =>
      match log_decision (ti_now i) d db1 with
      | inl e => TickCrashed (DatabaseError e) effs (mk_session h2 b1 db1 (running s))
      | inr db2 => TickDone d effs (mk_session h2 b1 db2 (running s))
      end end end end end
  end.

(** [while st.session_state.running]: ticks until an exception. *)
Fixpoint run_loop (s : session) (ins : list tick_input)
  : list (decision * list command_effect) * session * option loop_error :=
  match ins with
  | [] => ([], s, None)
  | i :: ins' =>
      match tick s i with
      | TickDone d effs s' =>
          let '(outs, sf, err) := run_loop s' ins' in ((d, effs) :: outs, sf, err)
      | TickCrashed e effs s' => ([], s', Some e)
      end
  end.

Definition effect_action (e : command_effect) : Action :=
  match e with SentToUsb a | PrintedAction a => a end.

(** No two consecutive events carry the same message. *)
Fixpoint adjacent_distinct (es : list (nat * event_row)) : Prop :=
  match es with
  | x :: ((y :: _) as t) => reason_eqb (er_message (snd x)) (er_message (snd y)) = false /\ adjacent_distinct t
  | _ => True
  end.

(** A rerun of the script: [db.init_db()] (line 10) runs again, the
    session state persists. *)
Definition rerun (s : session) : session :=
  mk_session (hw s) (brain s) (init_db (dbf s)) (running s).

(** The Start/Stop button (lines 32-33), in the rerun its click causes. *)
Definition press_start_stop (s : session) : session :=
  mk_session (hw s) (brain s) (init_db (dbf s)) (negb (running s)).

(** The Clear Database button (lines 37-41): [db.clear_db()], then
    [st.rerun()]. *)
Definition press_clear (s : session) : db_error + session :=
  match clear_db (init_db (dbf s)) with
  | inl e => inl e
  | inr d' => inr (mk_session (hw s) (brain s) (init_db d') (running s))
  end.

(** The Inject/Stop Overheat button (lines 48-54). *)
Definition press_inject (s : session) : session :=
  mk_session (snd (inject_sim_fault (hw s))) (brain s) (init_db (dbf s)) (running s).

(** What the program does to a session: loop ticks while [running] (also
    the one that raises), and the reruns of the script, which run
    [db.init_db()] (line 10) again while [st.session_state] persists: a
    plain rerun, and the three buttons, whose click reruns the script
    with the button returning [True].  A rerun requested during the loop
    takes effect at the script's next Streamlit call, which follows the
    logging of the tick (line 91), so ticks are atomic. *)
Inductive session_step : session -> session -> Prop :=
| ss_tick s i d effs s' :
    running s = true -> noise_ok (ti_noise_t i) (ti_noise_v i) ->
    tick s i = TickDone d effs s' -> session_step s s'
| ss_crash s i e effs s' :
    running s = true -> noise_ok (ti_noise_t i) (ti_noise_v i) ->
    tick s i = TickCrashed e effs s' -> session_step s s'
| ss_toggle s : session_step s (press_start_stop s)
| ss_clear s s' : press_clear s = inr s' -> session_step s s'
| ss_inject s : session_step s (press_inject s)
| ss_rerun s : session_step s (rerun s).

Inductive session_reachable (d0 : db) (opens : bool) : session -> Prop :=
| sr_setup : session_reachable d0 opens (page_setup d0 opens)
| sr_step s s' : session_reachable d0 opens s -> session_step s s' -> session_reachable d0 opens s'.

(** The database invariant the loop keeps: well-formed tables whose
    events never repeat a message twice in a row. *)
Definition db_inv (d : db) : Prop :=
  db_wf d /\ forall es, events d = Some es -> adjacent_distinct es.

(** The quiet statuses: nothing is logged for them. *)
Definition quiet (st : Status) : bool :=
  match st with NORMAL | LEARNING => true | _ => false end.

Definition tick_session (o : tick_outcome) : session :=
  match o with TickDone _ _ s | TickCrashed _ _ s => s end.

(** What every reachable session satisfies: the database invariant with
    both tables present, a brain reachable with the limit 20 of
    [AgentBrain()], and a hardware object reachable from
    [HardwareInterface()] on COM3 at 9600 baud. *)
Definition sess_inv (s : session) : Prop :=
  db_inv (dbf s) /\ readings (dbf s) <> None /\ events (dbf s) <> None /\
  reachable 20 (brain s) /\ hw_reachable "COM3" 9600 (hw s).

(** Case analysis of every [match] of a hypothesis [tick s i = _]. *)
Ltac tick_cases H :=
  unfold tick, require_key in H;
  repeat match type of H with
  | context [match ?x with _ => _ end] =>
      lazymatch x with
      | match _ with _ => _ end => fail
      | _ => let E := fresh "E" in destruct x eqn:E
      end
  end;
  try discriminate H.

(** ** Sending the commands *)

Lemma send_command_action h a : effect_action (fst (send_command h a)) = a.
Proof. unfold send_command. now destruct (is_connected h), (connection h). Qed.

Lemma send_all_actions h acts : map effect_action (fst (send_all h acts)) = acts.
Proof.
  revert h. induction acts as [|a acts IH]; intros h; [reflexivity|]. simpl.
  repeat match goal with |- context [match ?x with _ => _ end] => destruct x eqn:? end.
  simpl. f_equal.
  - match goal with H : send_command ?h1 a = (_, _) |- _ =>
      pose proof (send_command_action h1 a) as X; rewrite H in X; exact X end.
  - match goal with H : send_all ?h1 acts = (_, _) |- _ =>
      specialize (IH h1); rewrite H in IH; exact IH end.
Qed.

(** Sending changes nothing but what was written to the port. *)
Definition same_but_tx (h h' : HardwareInterface) : Prop :=
  port h' = port h /\ baud_rate h' = baud_rate h /\ is_connected h' = is_connected h /\
  sim_temp h' = sim_temp h /\ sim_volt h' = sim_volt h /\ sim_curr h' = sim_curr h /\
  fault_active h' = fault_active h /\
  option_map sp_port (connection h') = option_map sp_port (connection h).

Lemma same_but_tx_trans h1 h2 h3 : same_but_tx h1 h2 -> same_but_tx h2 h3 -> same_but_tx h1 h3.
Proof. unfold same_but_tx. intuition congruence. Qed.

Lemma send_command_same h a : same_but_tx h (snd (send_command h a)).
Proof.
  unfold send_command, same_but_tx.
  destruct (is_connected h) eqn:Ec, (connection h) eqn:Eh; cbn; rewrite ?Ec, ?Eh; repeat split.
Qed.

Lemma send_all_same h acts : same_but_tx h (snd (send_all h acts)).
Proof.
  revert h. induction acts as [|a acts IH]; intros h; [repeat split|]. simpl.
  repeat match goal with |- context [match ?x with _ => _ end] => destruct x eqn:? end.
  repeat match goal with
  | H : send_command ?x a = (_, _) |- _ =>
      let X := fresh in pose proof (send_command_same x a) as X; rewrite H in X; clear H
  | H : send_all ?x acts = (_, _) |- _ =>
      let X := fresh in pose proof (IH x) as X; rewrite H in X; clear H
  end.
  simpl in *. eauto using same_but_tx_trans.
Qed.

(** The hardware steps of a tick are steps of the object. *)
Lemma send_all_reachable p baud h acts :
  hw_reachable p baud h -> hw_reachable p baud (snd (send_all h acts)).
Proof.
  revert h. induction acts as [|a acts IH]; intros h Hr; [exact Hr|]. simpl.
  destruct (send_command h a) as [e h1] eqn:Hs. destruct (send_all h1 acts) as [es h2] eqn:Ha.
  specialize (IH h1). rewrite Ha in IH. apply IH.
  eapply hw_reach_step; [exact Hr|]. replace h1 with (snd (send_command h a)) by now rewrite Hs.
  apply step_send.
Qed.

(** ** Logging a decision *)

Lemma adjacent_distinct_snoc es x :
  adjacent_distinct es ->
  (forall y, last es = Some y -> reason_eqb (er_message (snd y)) (er_message (snd x)) = false) ->
  adjacent_distinct (es ++ [x]).
Proof.
  induction es as [|y [|z t] IH]; simpl; intros Hd Hl.
  - exact I.
  - split; [now apply Hl | exact I].
  - destruct Hd as [Hyz Hd]. split; [exact Hyz|]. apply IH; [exact Hd|].
    intros w Hw. apply Hl. destruct t; exact Hw.
Qed.

(** On a well-formed table, the newest event is the last row. *)
Lemma recent_one d es :
  db_wf d -> events d = Some es ->
  get_recent_events 1 d = inr (match last es with Some y => [y] | None => [] end).
Proof.
  intros [_ He] E. unfold get_recent_events. rewrite E, (select_recent_wf _ _ _ (He _ E)).
  f_equal. destruct es as [|es0 y] using rev_ind; [reflexivity|].
  now rewrite reverse_snoc, last_snoc.
Qed.

Lemma log_event_events now ty m d d' es :
  log_event now ty m d = inr d' -> events d = Some es ->
  exists id, events d' = Some (es ++ [(id, mk_event_row now ty m)]) /\ readings d' = readings d.
Proof.
  unfold log_event. intros Hl E. rewrite E in Hl. injection Hl as <-. eexists. split; reflexivity.
Qed.

(** Logging a decision keeps the database invariant and the readings. *)
(** What [log_decision] can do: nothing, or [log_event] when the newest
    event's message differs from the reason. *)
Lemma log_decision_cases now dec d d' :
  db_wf d -> log_decision now dec d = inr d' ->
  d' = d \/ exists es, events d = Some es /\
    log_event now (status dec) (reason dec) d = inr d' /\
    forall y, last es = Some y -> reason_eqb (er_message (snd y)) (reason dec) = false.
Proof.
  intros Hwf Hl. unfold log_decision in Hl.
  destruct (events d) as [es|] eqn:E;
    [rewrite (recent_one d es Hwf E) in Hl | unfold get_recent_events in Hl; rewrite E in Hl].
  - destruct (last es) as [[i row]|] eqn:El;
      [destruct (reason_eqb (er_message row) (reason dec)) eqn:Er|];
      destruct (status dec); try (left; congruence); right; exists es;
      (split; [reflexivity | split; [exact Hl|]]); intros y Hy; rewrite El in Hy;
      first [discriminate Hy | injection Hy as <-; assumption].
  - destruct (status dec); left; congruence.
Qed.

Lemma log_decision_inv now dec d d' :
  db_inv d -> log_decision now dec d = inr d' -> db_inv d' /\ readings d' = readings d.
Proof.
  intros Hinv Hl. pose proof Hinv as [Hwf Had].
  destruct (log_decision_cases _ _ _ _ Hwf Hl) as [-> | (es & E & Hle & Hy)];
    [exact (conj Hinv eq_refl)|].
  destruct (log_event_events _ _ _ _ _ _ Hle E) as (id & E' & Hr).
  split; [split|]; [eapply log_event_wf; eassumption | | exact Hr].
  intros es' Hes'. rewrite E' in Hes'. injection Hes' as <-.
  apply adjacent_distinct_snoc; [now apply Had | exact Hy].
Qed.

Lemma log_event_surfaces now st r d d' :
  db_wf d -> log_event now st r d = inr d' ->
  exists id row, get_recent_events 1 d' = inr [(id, row)] /\ reason_eqb (er_message row) r = true.
Proof.
  intros Hwf Hl. pose proof (log_event_wf _ _ _ _ _ Hwf Hl) as Hwf'.
  destruct (events d) as [es|] eqn:E; [|unfold log_event in Hl; rewrite E in Hl; discriminate].
  destruct (log_event_events _ _ _ _ _ _ Hl E) as (id & E' & _).
  exists id, (mk_event_row now st r). rewrite (recent_one d' _ Hwf' E'), last_snoc.
  split; [reflexivity | apply reason_eqb_refl].
Qed.

(** [log_decision] fails only when the events table is missing. *)
Lemma log_decision_ok now dec d :
  events d <> None -> exists d', log_decision now dec d = inr d'.
Proof.
  intros He. unfold log_decision, get_recent_events, log_event.
  destruct (events d) as [es|]; [|congruence].
  destruct (status dec); eauto;
    (destruct (select_recent 1 es) as [|[i row] t]; eauto;
     destruct (reason_eqb (er_message row) (reason dec)); eauto).
Qed.

Lemma log_data_ok now t v c d :
  readings d <> None ->
  exists d', log_data now t v c d = inr d' /\ events d' = events d /\ readings d' <> None.
Proof.
  intros Hr. unfold log_data. destruct (readings d); [|congruence].
  eexists; repeat split; discriminate.
Qed.

Lemma log_data_events now t v c d d' : log_data now t v c d = inr d' -> events d' = events d.
Proof. unfold log_data. destruct (readings d); [|discriminate]. now intros [= <-]. Qed.

Lemma log_data_inv now t v c d d' :
  db_inv d -> log_data now t v c d = inr d' -> db_inv d' /\ events d' = events d.
Proof.
  intros [Hwf Had] Hl. pose proof (log_data_events _ _ _ _ _ _ Hl) as He.
  split; [split|]; [eapply log_data_wf; eassumption | rewrite He; exact Had | exact He].
Qed.

Lemma log_decision_events now dec d d' :
  log_decision now dec d = inr d' -> events d <> None -> events d' <> None.
Proof.
  unfold log_decision, log_event, get_recent_events. intros Hl He.
  destruct (events d) as [es|] eqn:E; [|congruence].
  repeat match type of Hl with
  | context [match ?x with _ => _ end] => destruct x
  end; injection Hl as <-; simpl; congruence.
Qed.

Lemma log_decision_readings now dec d d' :
  log_decision now dec d = inr d' -> readings d' = readings d.
Proof.
  unfold log_decision, log_event. intros Hl.
  repeat match type of Hl with
  | context [match ?x with _ => _ end] => destruct x
  end; try discriminate Hl; injection Hl as <-; reflexivity.
Qed.

(** ** One tick *)

(** A completed tick: the reading has all three keys, the analysis
    returned, the commands were sent, the reading and the decision were
    logged. *)
Lemma tick_done_inv s i d effs s' :
  tick s i = TickDone d effs s' ->
  exists data h1 t v c db1,
    get_data (hw s) (ti_serial i) (ti_noise_t i) (ti_noise_v i) = (data, h1) /\
    analyze (brain s) data = Returned d (brain s') /\
    send_all h1 (actions d) = (effs, hw s') /\
    r_temp data = Some t /\ r_volt data = Some v /\ r_curr data = Some c /\
    log_data (ti_now i) t v c (dbf s) = inr db1 /\ log_decision (ti_now i) d db1 = inr (dbf s').
Proof.
  intros H. tick_cases H. injection H; intros; subst.
  do 6 eexists. repeat split; eassumption.
Qed.

Lemma get_data_reachable h rd nt nv :
  hw_reachable "COM3" 9600 h -> noise_ok nt nv -> hw_reachable "COM3" 9600 (snd (get_data h rd nt nv)).
Proof. intros Hh Hn. eapply hw_reach_step; [exact Hh | constructor; exact Hn]. Qed.

(** Every tick, also one that raises, keeps the session invariant. *)
Lemma tick_inv s i :
  sess_inv s -> noise_ok (ti_noise_t i) (ti_noise_v i) -> sess_inv (tick_session (tick s i)).
Proof.
  intros (Hdb & Hr & He & Hb & Hh) Hn. unfold tick.
  destruct (get_data (hw s) (ti_serial i) (ti_noise_t i) (ti_noise_v i)) as [data h1] eqn:Hg.
  pose proof (get_data_reachable _ (ti_serial i) _ _ Hh Hn) as Hh1. rewrite Hg in Hh1. simpl in Hh1.
  destruct (analyze_total (brain s) data) as (d & b1 & Ha). rewrite Ha.
  pose proof (reach_step _ _ _ _ _ Hb Ha) as Hb1.
  destruct (send_all _ _) as [effs h2] eqn:Hs.
  assert (Hh2 : hw_reachable "COM3" 9600 h2).
  { match type of Hs with send_all ?h ?l = _ =>
      pose proof (send_all_reachable _ _ h l Hh1) as X; rewrite Hs in X; exact X end. }
  unfold require_key.
  destruct (r_temp data) as [t|], (r_volt data) as [v|], (r_curr data) as [c|];
    try exact (conj Hdb (conj Hr (conj He (conj Hb1 Hh2)))).
  destruct (log_data_ok (ti_now i) t v c (dbf s) Hr) as (db1 & Hl & Hev & Hr1). rewrite Hl.
  destruct (log_data_inv _ _ _ _ _ _ Hdb Hl) as [Hdb1 _].
  destruct (log_decision_ok (ti_now i) d db1) as (db2 & Hd); [congruence|]. rewrite Hd.
  destruct (log_decision_inv _ _ _ _ Hdb1 Hd) as [Hdb2 Hrr].
  refine (conj Hdb2 (conj _ (conj _ (conj Hb1 Hh2)))); simpl.
  - now rewrite Hrr.
  - eapply log_decision_events; [exact Hd | congruence].
Qed.

Lemma init_db_inv d : db_inv d -> db_inv (init_db d).
Proof.
  intros [Hwf Had]. split; [now apply init_db_wf|]. simpl. intros es [= <-].
  destruct (events d) as [es|] eqn:E; [now apply Had | exact I].
Qed.

Lemma clear_db_inv d d' : clear_db d = inr d' -> db_inv d'.
Proof.
  intros Hc. split; [exact (clear_db_wf _ _ Hc)|]. revert Hc. unfold clear_db.
  destruct (readings d), (events d); try discriminate. intros [= <-] es [= <-]. exact I.
Qed.

(** The invariant of every session the program reaches from a database
    file that satisfies [db_inv] (a fresh file does: it has no tables). *)
Lemma session_reachable_inv d0 opens s :
  db_inv d0 -> session_reachable d0 opens s -> sess_inv s.
Proof.
  intros H0. induction 1 as [|s s' _ IH Hs].
  - refine (conj (init_db_inv _ H0) (conj _ (conj _ (conj (reach_init 20) _)))); try discriminate.
    eapply hw_reach_step; [apply hw_reach_init | constructor].
  - destruct IH as (Hdb & Hr & He & Hb & Hh).
    destruct Hs as [s i d effs s' _ Hn Ht|s i e effs s' _ Hn Ht|s|s s' Hc|s|s].
    + change s' with (tick_session (TickDone d effs s')). rewrite <- Ht. now apply tick_inv.
    + change s' with (tick_session (TickCrashed e effs s')). rewrite <- Ht. now apply tick_inv.
    + refine (conj (init_db_inv _ Hdb) (conj _ (conj _ (conj Hb Hh)))); discriminate.
    + revert Hc. unfold press_clear. destruct (clear_db (init_db (dbf s))) as [e|d'] eqn:Hc;
        [discriminate|]. intros [= <-].
      refine (conj (init_db_inv _ (clear_db_inv _ _ Hc)) (conj _ (conj _ (conj Hb Hh)))); discriminate.
    + refine (conj (init_db_inv _ Hdb) (conj _ (conj _ (conj Hb _)))); try discriminate.
      eapply hw_reach_step; [exact Hh | constructor].
    + refine (conj (init_db_inv _ Hdb) (conj _ (conj _ (conj Hb Hh)))); discriminate.
Qed.

Lemma get_data_port h rd nt nv :
  is_connected (snd (get_data h rd nt nv)) = is_connected h /\
  connection (snd (get_data h rd nt nv)) = connection h.
Proof.
  unfold get_data, generate_simulated_data.
  destruct (is_connected h) eqn:E1, (connection h) eqn:E2, rd as [| [] |]; simpl; split; congruence.
Qed.

Lemma tick_running s i : running (tick_session (tick s i)) = running s.
Proof.
  unfold tick.
  repeat match goal with |- context [match ?x with _ => _ end] => destruct x end; reflexivity.
Qed.

Lemma run_loop_reachable d0 opens s ins outs sf :
  session_reachable d0 opens s -> running s = true ->
  Forall (fun i => noise_ok (ti_noise_t i) (ti_noise_v i)) ins ->
  run_loop s ins = (outs, sf, None) -> session_reachable d0 opens sf.
Proof.
  revert s outs. induction ins as [|i ins IH]; intros s outs Hs Hrun Hn Hr; simpl in Hr.
  - now injection Hr as _ <-.
  - inversion Hn as [|? ? Hi Hn']; subst.
    pose proof (tick_running s i) as Hrun'.
    destruct (tick s i) as [d effs s'|e effs s'] eqn:Ht; [|discriminate].
    destruct (run_loop s' ins) as [[outs' sf'] err] eqn:Hl. injection Hr as _ <- ->.
    eapply IH; [eapply sr_step; [exact Hs | eapply ss_tick; eassumption] | | exact Hn' | exact Hl].
    simpl in Hrun'. congruence.
Qed.

(** The converse of [tick_done_inv]: when both tables exist and the
    reading has its three keys, the tick completes. *)
Lemma tick_complete s i data h1 d b1 t v c :
  readings (dbf s) <> None -> events (dbf s) <> None ->
  get_data (hw s) (ti_serial i) (ti_noise_t i) (ti_noise_v i) = (data, h1) ->
  analyze (brain s) data = Returned d b1 ->
  r_temp data = Some t -> r_volt data = Some v -> r_curr data = Some c ->
  exists effs h2 db2, tick s i = TickDone d effs (mk_session h2 b1 db2 (running s)) /\
    same_but_tx h1 h2.
Proof.
  intros Hr He Hg Ha Ht Hv Hc. unfold tick, require_key. rewrite Hg, Ha.
  destruct (send_all _ _) as [effs h2] eqn:Hs.
  assert (Hsame : same_but_tx h1 h2).
  { match type of Hs with send_all ?h ?l = _ =>
      pose proof (send_all_same h l) as X; rewrite Hs in X; exact X end. }
  rewrite Ht, Hv, Hc.
  destruct (log_data_ok (ti_now i) t v c (dbf s) Hr) as (db1 & Hl & Hev & _). rewrite Hl.
  destruct (log_decision_ok (ti_now i) d db1) as (db2 & Hd); [congruence|]. rewrite Hd.
  exists effs, h2, db2. split; [reflexivity | exact Hsame].
Qed.

(** A tick without a JSON line completes on the simulator's reading. *)
Lemma tick_simulated s i :
  sess_inv s -> no_json (ti_serial i) = true ->
  let '(data, h1) := generate_simulated_data (hw s) (ti_noise_t i) (ti_noise_v i) in
  exists d b1 effs h2 db2, analyze (brain s) data = Returned d b1 /\
    tick s i = TickDone d effs (mk_session h2 b1 db2 (running s)) /\ same_but_tx h1 h2.
Proof.
  intros (_ & Hr & He & _) Hj.
  pose proof (get_data_fallback (hw s) (ti_serial i) (ti_noise_t i) (ti_noise_v i) Hj) as Hg.
  destruct (generate_simulated_data (hw s) (ti_noise_t i) (ti_noise_v i)) as [data h1] eqn:Hs.
  destruct (analyze_total (brain s) data) as (d & b1 & Ha).
  assert (Hk : exists t v c, r_temp data = Some t /\ r_volt data = Some v /\ r_curr data = Some c).
  { unfold generate_simulated_data in Hs. injection Hs as <- _. do 3 eexists. repeat split. }
  destruct Hk as (t & v & c & Ht & Hv & Hc).
  destruct (tick_complete s i data h1 d b1 t v c Hr He Hg Ha Ht Hv Hc) as (effs & h2 & db2 & Htk & Hsame).
  exists d, b1, effs, h2, db2. auto.
Qed.

Lemma classify_fault thr hard base hist t :
  fgt t hard = true -> classify thr hard base hist t = fault_decision t.
Proof. intros H. unfold classify. now rewrite H. Qed.

(** The loop on the simulator: with no JSON line, the tick of index [k]
    decides by the rule table of the brain's parameters on the reading of
    the simulator after [k+1] physics steps. *)
Lemma loop_simulated ins s outs sf err k :
  sess_inv s -> state (brain s) = MONITORING ->
  Forall (fun i => no_json (ti_serial i) = true /\ noise_ok (ti_noise_t i) (ti_noise_v i)) ins ->
  run_loop s ins = (outs, sf, err) -> (k < length ins)%nat ->
  exists d effs i hist sk sk', nth_error outs k = Some (d, effs) /\ nth_error ins k = Some i /\
    tick sk i = TickDone d effs sk' /\
    d = classify (dynamic_threshold (brain s)) (HARD_LIMIT_TEMP (brain s)) (baseline_temp (brain s)) hist
          (Fin (round2 (sim_iter (fault_active (hw s)) (S k) (sim_temp (hw s)) + ti_noise_t i))).
Proof.
  revert s outs sf err k. induction ins as [|i ins IH]; intros s outs sf err k Hinv Hm Hall Hrun Hk;
    [simpl in Hk; lia|].
  inversion Hall as [|? ? [Hjs Hn] Hall']; subst.
  pose proof (tick_simulated s i Hinv Hjs) as Hts.
  pose proof (tick_inv s i Hinv Hn) as Hinv'.
  destruct (generate_simulated_data (hw s) (ti_noise_t i) (ti_noise_v i)) as [data h1] eqn:Hg.
  destruct Hts as (d & b1 & effs & h2 & db2 & Ha & Ht & Hsame). rewrite Ht in Hinv'. simpl in Hinv'.
  rewrite (analyze_monitoring_classify _ _ Hm) in Ha. injection Ha as Hd Hb.
  unfold generate_simulated_data in Hg. injection Hg as Hdata Hh1.
  destruct Hsame as (_ & _ & _ & Hst & _ & _ & Hfa & _).
  simpl in Hrun. rewrite Ht in Hrun.
  destruct (run_loop _ ins) as [[outs' sf'] err'] eqn:Hl. injection Hrun as <- <- <-.
  destruct k as [|k].
  - exists d, effs, i, (history_after (brain s) (get_or_zero (r_temp data))), s,
      (mk_session h2 b1 db2 (running s)).
    split; [reflexivity|]. split; [reflexivity|]. split; [exact Ht|].
    rewrite <- Hd, <- Hdata. reflexivity.
  - destruct (IH _ outs' sf' err' k Hinv') as (d' & effs' & i' & hist & sk & sk' & Hn' & Hi' & Ht' & Hd');
      [rewrite <- Hb; exact Hm | exact Hall' | exact Hl | simpl in Hk; lia |].
    exists d', effs', i', hist, sk, sk'. split; [exact Hn'|]. split; [exact Hi'|]. split; [exact Ht'|].
    rewrite Hd'. cbn [hw brain]. rewrite Hst, Hfa, <- Hb, <- Hh1. reflexivity.
Qed.

(** A rule table whose limits are all above the reading answers
    "System Stable". *)
Lemma classify_default thr hard base hist t :
  fgt t hard = false -> fgt t thr = false -> fgt t (fadd base TREND_MARGIN) = false ->
  classify thr hard base hist t = default_result.
Proof.
  intros H1 H2 H3. unfold classify, trend_fires. now rewrite H1, H2, H3, andb_false_r.
Qed.

(** The parameters of a reachable monitoring brain. *)
Lemma monitoring_params s :
  sess_inv s -> state (brain s) = MONITORING ->
  HARD_LIMIT_TEMP (brain s) = Fin 80 /\
  dynamic_threshold (brain s) = fscale THRESHOLD_FACTOR (baseline_temp (brain s)).
Proof.
  intros (_ & _ & _ & Hb & _) Hm. destruct (reachable_inv _ _ Hb) as (_ & Hh & _ & _ & Hs).
  rewrite Hm in Hs. destruct Hs as (_ & _ & Ht). now split.
Qed.

(** A completed tick's effects are its decision's actions. *)
Lemma tick_effects s i d effs s' :
  tick s i = TickDone d effs s' -> map effect_action effs = actions d.
Proof.
  intros Ht. destruct (tick_done_inv _ _ _ _ _ Ht) as (data & h1 & t & v & c & db1 & _ & _ & Hs & _).
  pose proof (send_all_actions h1 (actions d)) as X. now rewrite Hs in X.
Qed.

Lemma Forall_nth_error {A} (P : A -> Prop) xs k x :
  Forall P xs -> nth_error xs k = Some x -> P x.
Proof. intros H Hn. rewrite List.Forall_forall in H. apply H. eapply nth_error_In, Hn. Qed.


(** A tick that raises leaves the events table as it was: the only
    statement that changes it, [log_event], is the last of the tick. *)
Lemma tick_crashed_events s i e effs s' :
  tick s i = TickCrashed e effs s' -> events (dbf s') = events (dbf s).
Proof.
  intros H. tick_cases H; injection H; intros; subst; try reflexivity.
  eapply log_data_events; eassumption.
Qed.

(** The loop refines the engine: its decisions are those of [run] on the
    readings of its completed ticks, and each tick's effects are its
    decision's actions. *)
Lemma run_loop_refines s ins outs sf err :
  run_loop s ins = (outs, sf, err) ->
  exists datas, map fst outs = fst (run (brain s) datas) /\
    Forall (fun o => map effect_action (snd o) = actions (fst o)) outs.
Proof.
  revert s outs sf err. induction ins as [|i ins IH]; intros s outs sf err Hr; simpl in Hr.
  - injection Hr as <- _ _. exists []. split; [reflexivity | constructor].
  - destruct (tick s i) as [d effs s'|e effs s'] eqn:Ht.
    + destruct (run_loop s' ins) as [[outs' sf'] err'] eqn:Hl. injection Hr as <- _ _.
      destruct (IH s' outs' sf' err' Hl) as (datas & Hm & Hf).
      destruct (tick_done_inv _ _ _ _ _ Ht) as (data & h1 & t & v & c & db1 & _ & Ha & Hs & _).
      exists (data :: datas). rewrite (run_step _ _ _ _ _ Ha). simpl. rewrite Hm.
      split; [reflexivity|]. constructor; [|exact Hf]. simpl.
      pose proof (send_all_actions h1 (actions d)) as Hx. now rewrite Hs in Hx.
    + injection Hr as <- _ _. exists []. split; [reflexivity | constructor].
Qed.

(** A loop whose completed ticks all have decisions of which a tick logs
    no event leaves the events table as it was (a tick that raises never
    changes it). *)
Lemma run_loop_events (P : decision -> Prop) s ins outs sf err :
  (forall s i d effs s', tick s i = TickDone d effs s' -> P d -> events (dbf s') = events (dbf s)) ->
  run_loop s ins = (outs, sf, err) -> Forall (fun o => P (fst o)) outs ->
  events (dbf sf) = events (dbf s).
Proof.
  intros HP. revert s outs sf err. induction ins as [|i ins IH]; intros s outs sf err Hr Hq; simpl in Hr.
  - now injection Hr as _ <- _.
  - destruct (tick s i) as [d effs s'|e effs s'] eqn:Ht.
    + destruct (run_loop s' ins) as [[outs' sf'] err'] eqn:Hl. injection Hr as <- <- _.
      inversion Hq as [|? ? Hq1 Hq2]; subst.
      rewrite (IH s' outs' sf' err' Hl Hq2). exact (HP _ _ _ _ _ Ht Hq1).
    + injection Hr as _ <- _. exact (tick_crashed_events _ _ _ _ _ Ht).
Qed.

(** ** A demonstration session

    The port opens on the page load, the operator clicks Start; twenty
    JSON lines of 40 degrees calibrate the brain (baseline 40, threshold
    48). *)
Definition demo_now : string := "2026-01-01 12:00:00".

Definition demo_json (t : Q) : tick_input :=
  mk_tick_input (LineRead (JsonObject (reading_of t 5 1))) 0 0 demo_now.

Definition demo_start : session := press_start_stop (page_setup empty_db true).

Definition demo_session : session :=
  snd (fst (run_loop demo_start (repeat (demo_json 40) 20))).

Lemma demo_start_reachable : session_reachable empty_db true demo_start.
Proof. exact (sr_step _ _ _ _ (sr_setup _ _) (ss_toggle _)). Qed.

Lemma demo_session_reachable : session_reachable empty_db true demo_session.
Proof.
  set (ins := repeat (demo_json 40) 20).
  apply (run_loop_reachable empty_db true demo_start ins (fst (fst (run_loop demo_start ins))) demo_session);
    [exact demo_start_reachable | reflexivity | |].
  - apply List.Forall_forall. intros i Hi. apply repeat_spec in Hi. subst i.
    unfold noise_ok, demo_json; cbn [ti_noise_t ti_noise_v]; repeat split; lra.
  - vm_compute. reflexivity.
Qed.

Lemma empty_db_inv : db_inv empty_db.
Proof. split; [split|]; simpl; discriminate. Qed.

(** ** Theorems of the loop *)

(** C6. Calibration is silent: from a session with a fresh
    [AgentBrain()], the first 20 completed ticks of the loop decide
    LEARNING and send no command, and as long as the loop has completed
    at most 20 ticks no event was logged. *)
Theorem calibration_ticks_quiet s ins outs sf err :
  brain s = AgentBrain.init -> run_loop s ins = (outs, sf, err) ->
  (forall k d effs, nth_error outs k = Some (d, effs) -> (k < 20)%nat ->
     status d = LEARNING /\ effs = []) /\
  ((length outs <= 20)%nat -> events (dbf sf) = events (dbf s)).
Proof.
  intros Hb Hr. destruct (run_loop_refines _ _ _ _ _ Hr) as (datas & Hm & Hf).
  assert (Hk : forall k d effs, nth_error outs k = Some (d, effs) -> (k < 20)%nat ->
                 d = learning (S k) 20 /\ effs = []).
  { intros k d effs Hn Hk.
    assert (Hd : nth_error (fst (run (fresh 20) datas)) k = Some d).
    { change (fresh 20) with AgentBrain.init. rewrite <- Hb, <- Hm, nth_error_map, Hn. reflexivity. }
    apply run_fresh_learning in Hd; [|lia|exact Hk]. split; [exact Hd|].
    rewrite List.Forall_forall in Hf. apply nth_error_In in Hn.
    pose proof (Hf _ Hn) as He. simpl in He. rewrite Hd in He. now apply map_eq_nil in He. }
  split.
  - intros k d effs Hn Hlt. destruct (Hk k d effs Hn Hlt) as [-> ->]. now split.
  - intros Hlen. apply (run_loop_events (fun d => status d = LEARNING) s ins outs sf err); [|exact Hr|].
    + (* a LEARNING tick logs its reading and no event *)
      intros s1 i d effs s1' Ht Hs.
      destruct (tick_done_inv _ _ _ _ _ Ht) as (data & h1 & t & v & c & db1 & _ & _ & _ & _ & _ & _ & Hl & Hd).
      unfold log_decision in Hd. rewrite Hs in Hd. injection Hd as <-.
      eapply log_data_events; eassumption.
    + apply List.Forall_forall. intros [d effs] Hin. apply In_nth_error in Hin as [k Hn].
      assert (Hlt : (k < length outs)%nat) by (apply nth_error_Some; rewrite Hn; discriminate).
      destruct (Hk k d effs Hn ltac:(lia)) as [-> _]. reflexivity.
Qed.

Lemma calibration_ticks_quiet_witness :
  let r := run_loop demo_start (repeat (demo_json 40) 20) in
  length (fst (fst r)) = 20%nat /\
  (forall k d effs, nth_error (fst (fst r)) k = Some (d, effs) -> (k < 20)%nat ->
     status d = LEARNING /\ effs = []) /\
  events (dbf (snd (fst r))) = Some [].
Proof.
  intros r. split; [vm_compute; reflexivity|].
  destruct r as [[outs sf] err] eqn:Hr.
  destruct (calibration_ticks_quiet demo_start _ outs sf err eq_refl Hr) as [H1 H2].
  cbn [fst snd]. split; [exact H1|]. rewrite H2; [reflexivity|].
  assert (Hl : length outs = 20%nat) by (unfold r in Hr; vm_compute in Hr; now injection Hr as <- _ _).
  lia.
Defined.

(** C7. Every completed tick logs its reading: the readings table
    gains exactly one row, at the end, with the tick's temperature,
    voltage and current and an id above every id already there. *)
Theorem tick_logs_reading s i d effs s' data h1 rs :
  tick s i = TickDone d effs s' ->
  get_data (hw s) (ti_serial i) (ti_noise_t i) (ti_noise_v i) = (data, h1) ->
  readings (dbf s) = Some rs ->
  exists id t v c, r_temp data = Some t /\ r_volt data = Some v /\ r_curr data = Some c /\
    readings (dbf s') = Some (rs ++ [(id, mk_reading_row (ti_now i) t v c)]) /\
    (forall j r, In (j, r) rs -> (j < id)%nat).
Proof.
  intros Ht Hg Hr. tick_cases Ht. injection Ht; intros; subst.
  injection Hg; intros; subst. cbn [dbf].
  match goal with E : log_decision _ _ _ = inr _ |- _ => rewrite (log_decision_readings _ _ _ _ E) end.
  (* [db.log_data(data['temp'], data['volt'], data['curr'])] appends one row *)
  match goal with E : log_data _ _ _ _ _ = inr _ |- _ =>
    unfold log_data in E; rewrite Hr in E; injection E; intros; subst end.
  do 4 eexists. do 4 (split; [eassumption || reflexivity|]).
  intros j r Hin. pose proof (max_id_ge _ _ _ Hin). unfold next_rowid. lia.
Qed.

Lemma tick_logs_reading_witness :
  match tick demo_session (demo_json 90), readings (dbf demo_session) with
  | TickDone d effs s', Some rs =>
      exists id t v c, t = Fin 90 /\ v = Fin 5 /\ c = Fin 1 /\
        readings (dbf s') = Some (rs ++ [(id, mk_reading_row demo_now t v c)]) /\
        (forall j r, In (j, r) rs -> (j < id)%nat)
  | _, _ => False
  end.
Proof.
  destruct (tick demo_session (demo_json 90)) as [d effs s'|e effs s'] eqn:Ht;
    [| vm_compute in Ht; discriminate Ht].
  destruct (readings (dbf demo_session)) as [rs|] eqn:Hr; [| vm_compute in Hr; discriminate Hr].
  destruct (tick_logs_reading demo_session (demo_json 90) d effs s' (reading_of 90 5 1)
              (hw demo_session) rs Ht ltac:(vm_compute; reflexivity) Hr)
    as (id & t & v & c & Ht' & Hv' & Hc' & Hrs & Hlt).
  injection Ht' as <-. injection Hv' as <-. injection Hc' as <-.
  exists id, (Fin 90), (Fin 5), (Fin 1). repeat split; assumption.
Defined.

(** C5. A completed tick hands every action of the decision to
    [send_command], in order; on an open port exactly these commands are
    appended to what was written to it. *)
Theorem commands_sent_in_order s i d effs s' sp :
  tick s i = TickDone d effs s' -> is_connected (hw s) = true -> connection (hw s) = Some sp ->
  map effect_action effs = actions d /\
  connection (hw s') = Some (mk_serial (sp_port sp) (sp_baud sp) (sp_tx sp ++ actions d)).
Proof.
  intros Ht Hc Hs. destruct (tick_done_inv _ _ _ _ _ Ht) as (data & h1 & t & v & c & db1 & Hg & _ & Hsend & _).
  destruct (get_data_port (hw s) (ti_serial i) (ti_noise_t i) (ti_noise_v i)) as [Hc1 Hs1].
  rewrite Hg in Hc1, Hs1. simpl in Hc1, Hs1.
  (* on an open port, [send_all] appends the commands to the port, in order *)
  assert (Htx : forall acts h sp, is_connected h = true -> connection h = Some sp ->
            connection (snd (send_all h acts)) =
              Some (mk_serial (sp_port sp) (sp_baud sp) (sp_tx sp ++ acts))).
  { induction acts as [|a acts IH]; intros h sp' Hc' Hs'.
    - simpl. rewrite Hs', app_nil_r. now destruct sp'.
    - simpl. unfold send_command at 1. rewrite Hc', Hs'.
      destruct (send_all _ acts) as [es h2] eqn:Ha. simpl.
      specialize (IH (mk_hw (port h) (baud_rate h)
                        (Some (mk_serial (sp_port sp') (sp_baud sp') (sp_tx sp' ++ [a])))
                        (is_connected h) (sim_temp h) (sim_volt h) (sim_curr h) (fault_active h))
                     _ Hc' eq_refl).
      rewrite Hc', Ha in IH. simpl in IH. now rewrite IH, <- app_assoc. }
  pose proof (send_all_actions h1 (actions d)) as Ha. pose proof (Htx (actions d) h1 sp) as Hx.
  rewrite Hsend in Ha, Hx. split; [exact Ha | apply Hx; congruence].
Qed.

Lemma commands_sent_in_order_witness :
  let i := demo_json 90 in
  let o := tick demo_session i in
  tick demo_session i = o /\ is_connected (hw demo_session) = true /\
  match o with
  | TickDone d effs s' =>
      map effect_action effs = actions d /\
      connection (hw s') = Some (mk_serial "COM3" 9600 ([] ++ actions d))
  | TickCrashed _ _ _ => False
  end.
Proof.
  intros i o. split; [reflexivity|]. split; [vm_compute; reflexivity|].
  unfold o. destruct (tick demo_session i) as [d effs s'|e effs s'] eqn:Ht;
    [| vm_compute in Ht; discriminate Ht].
  exact (commands_sent_in_order demo_session i d effs s' (mk_serial "COM3" 9600 []) Ht
           ltac:(vm_compute; reflexivity) ltac:(vm_compute; reflexivity)).
Defined.

(** C4. Every WARNING or FAULT decision of a completed tick is
    surfaced: afterwards the newest event of the database carries its
    message, whether the tick inserted it or it was already the newest. *)
Theorem warning_fault_logged d0 opens s i d effs s' :
  db_inv d0 -> session_reachable d0 opens s ->
  tick s i = TickDone d effs s' -> quiet (status d) = false ->
  exists id row, get_recent_events 1 (dbf s') = inr [(id, row)] /\
                 reason_eqb (er_message row) (reason d) = true.
Proof.
  intros H0 Hr Ht Hq. destruct (session_reachable_inv _ _ _ H0 Hr) as (Hdb & _).
  destruct (tick_done_inv _ _ _ _ _ Ht) as (data & h1 & t & v & c & db1 & _ & _ & _ & _ & _ & _ & Hl & Hd).
  destruct (log_data_inv _ _ _ _ _ _ Hdb Hl) as [[Hwf1 _] _].
  (* the decision's reason is the newest event: inserted now, or already there *)
  unfold log_decision in Hd.
  destruct (status d); try discriminate Hq;
    (destruct (events db1) as [es|] eqn:E;
     [| unfold get_recent_events in Hd; rewrite E in Hd; discriminate]);
    rewrite (recent_one db1 es Hwf1 E) in Hd;
    (destruct (last es) as [[j row]|] eqn:El;
     [destruct (reason_eqb (er_message row) (reason d)) eqn:Er;
      [injection Hd as <-; exists j, row; rewrite (recent_one db1 es Hwf1 E), El; now split
      | eapply log_event_surfaces; eassumption]
     | eapply log_event_surfaces; eassumption]).
Qed.

Lemma warning_fault_logged_witness :
  let o := tick demo_session (demo_json 90) in
  db_inv empty_db /\ session_reachable empty_db true demo_session /\
  match o with
  | TickDone d effs s' =>
      quiet (status d) = false /\
      exists id row, get_recent_events 1 (dbf s') = inr [(id, row)] /\
                     reason_eqb (er_message row) (reason d) = true
  | TickCrashed _ _ _ => False
  end.
Proof.
  intros o. split; [exact empty_db_inv|]. split; [exact demo_session_reachable|].
  unfold o. destruct (tick demo_session (demo_json 90)) as [d effs s'|e effs s'] eqn:Ht;
    [| vm_compute in Ht; discriminate Ht].
  assert (Hq : quiet (status d) = false) by (vm_compute in Ht; injection Ht as <- _ _; reflexivity).
  split; [exact Hq|].
  exact (warning_fault_logged empty_db true demo_session (demo_json 90) d effs s'
           empty_db_inv demo_session_reachable Ht Hq).
Defined.

(** C14. In every session the program reaches, no two consecutive
    rows of the events table carry the same message: the check against
    the newest event de-duplicates a condition that persists over ticks. *)
Theorem events_never_repeat d0 opens s es :
  db_inv d0 -> session_reachable d0 opens s -> events (dbf s) = Some es -> adjacent_distinct es.
Proof.
  intros H0 Hr He. destruct (session_reachable_inv _ _ _ H0 Hr) as ((_ & Had) & _).
  exact (Had es He).
Qed.

(** After the calibration: two readings of 90 and one of 50 give two
    FAULT decisions with the same message and a WARNING. *)
Definition demo_hot_session : session :=
  snd (fst (run_loop demo_session [demo_json 90; demo_json 90; demo_json 50])).

Lemma events_never_repeat_witness :
  let es := default [] (events (dbf demo_hot_session)) in
  length es = 2%nat /\ adjacent_distinct es.
Proof.
  intros es. split; [vm_compute; reflexivity|].
  assert (Hr : session_reachable empty_db true demo_hot_session).
  { apply (run_loop_reachable _ _ demo_session [demo_json 90; demo_json 90; demo_json 50]
             (fst (fst (run_loop demo_session [demo_json 90; demo_json 90; demo_json 50])))
             demo_hot_session demo_session_reachable).
    - vm_compute. reflexivity.
    - repeat constructor; unfold noise_ok, demo_json; cbn [ti_noise_t ti_noise_v]; lra.
    - vm_compute. reflexivity. }
  apply (events_never_repeat empty_db true demo_hot_session es empty_db_inv Hr).
  vm_compute. reflexivity.
Defined.

(** C28 (finding). A JSON line without the key ["curr"] ends the loop
    with [KeyError('curr')] at [data['curr']] (main.py line 83), after the
    decision's commands went out and the brain took the sample into its
    history: the reading and the decision are never logged. *)
Theorem missing_curr_crashes s i data h1 d b1 t v :
  get_data (hw s) (ti_serial i) (ti_noise_t i) (ti_noise_v i) = (data, h1) ->
  analyze (brain s) data = Returned d b1 ->
  r_temp data = Some t -> r_volt data = Some v -> r_curr data = None ->
  tick s i = TickCrashed (KeyError "curr") (fst (send_all h1 (actions d)))
                         (mk_session (snd (send_all h1 (actions d))) b1 (dbf s) (running s)).
Proof.
  intros Hg Ha Ht Hv Hc. unfold tick, require_key.
  rewrite Hg, Ha. destruct (send_all h1 (actions d)). now rewrite Ht, Hv, Hc.
Qed.

(** An Arduino line with temperature and voltage but no current. *)
Definition demo_no_curr : tick_input :=
  mk_tick_input (LineRead (JsonObject (mk_reading (Some (Fin 90)) (Some (Fin 5)) None))) 0 0 demo_now.

Lemma missing_curr_crashes_witness :
  let b1 := with_history (brain demo_session) (Fin 90) in
  let h1 := hw demo_session in
  tick demo_session demo_no_curr =
    TickCrashed (KeyError "curr") (fst (send_all h1 [EMERGENCY_STOP; ALARM_ON; FAN_MAX]))
                (mk_session (snd (send_all h1 [EMERGENCY_STOP; ALARM_ON; FAN_MAX])) b1 (dbf demo_session)
                            (running demo_session)).
Proof.
  intros b1 h1.
  exact (missing_curr_crashes demo_session demo_no_curr (mk_reading (Some (Fin 90)) (Some (Fin 5)) None)
           h1 (fault_decision (Fin 90)) b1 (Fin 90) (Fin 5)
           ltac:(vm_compute; reflexivity) ltac:(vm_compute; reflexivity)
           eq_refl eq_refl eq_refl).
Defined.

(** C3 (liveness). After "Inject Overheat" on a monitoring session,
    as long as no JSON line arrives, every tick from the 34th on decides
    FAULT and sends EMERGENCY_STOP: [hw.get_data()] falls back to the
    simulator, which heats 1.5 per tick, also on an open port, where the
    command goes out over USB. *)
Theorem overheat_emergency_stop d0 opens s ins outs sf err k :
  db_inv d0 -> session_reachable d0 opens s ->
  state (brain s) = MONITORING -> fault_active (hw s) = true ->
  Forall (fun i => no_json (ti_serial i) = true /\ noise_ok (ti_noise_t i) (ti_noise_v i)) ins ->
  run_loop s ins = (outs, sf, err) -> (33 <= k)%nat -> (k < length ins)%nat ->
  exists d effs, nth_error outs k = Some (d, effs) /\ status d = FAULT /\
                 In EMERGENCY_STOP (map effect_action effs).
Proof.
  intros H0 Hr Hm Hf Hall Hrun Hk Hlen.
  pose proof (session_reachable_inv _ _ _ H0 Hr) as Hinv.
  pose proof (hw_reachable_inv _ _ _ (proj2 (proj2 (proj2 (proj2 Hinv))))) as [[HT _] _].
  destruct (monitoring_params s Hinv Hm) as [Hh _].
  destruct (loop_simulated ins s outs sf err k Hinv Hm Hall Hrun Hlen)
    as (d & effs & i & hist & sk & sk' & Hn & Hi & Htk & Hd).
  exists d, effs. split; [exact Hn|].
  (* the tick hands every action of its decision to [send_command] *)
  assert (Ha : map effect_action effs = actions d).
  { tick_cases Htk. injection Htk; intros; subst.
    match goal with E : send_all ?h ?l = (?e, _) |- _ =>
      pose proof (send_all_actions h l) as X; rewrite E in X; exact X end. }
  assert (Hfd : d = fault_decision (Fin (round2 (sim_iter true (S k) (sim_temp (hw s)) + ti_noise_t i)))).
  { rewrite Hd, Hh, Hf. apply classify_fault, flt_Fin.
    apply (heated_above_80 _ (ti_noise_v i)); [exact HT | apply (Forall_nth_error _ _ _ _ Hall Hi) | exact Hk]. }
  rewrite Ha, Hfd. split; [reflexivity | now left].
Qed.

Definition demo_idle : tick_input := mk_tick_input NothingWaiting 0 0 demo_now.

Definition demo_overheat_session : session := press_inject demo_session.

Lemma overheat_emergency_stop_witness :
  let r := run_loop demo_overheat_session (repeat demo_idle 34) in
  exists d effs, nth_error (fst (fst r)) 33 = Some (d, effs) /\ status d = FAULT /\
                 In EMERGENCY_STOP (map effect_action effs).
Proof.
  intros r. destruct r as [[outs sf] err] eqn:Hr.
  apply (overheat_emergency_stop empty_db true demo_overheat_session (repeat demo_idle 34) outs sf err 33
           empty_db_inv).
  - eapply sr_step; [exact demo_session_reachable | apply ss_inject].
  - vm_compute. reflexivity.
  - vm_compute. reflexivity.
  - apply List.Forall_forall. intros i Hi. apply repeat_spec in Hi. subst i.
    split; [reflexivity|]. unfold noise_ok, demo_idle; cbn [ti_noise_t ti_noise_v]. repeat split; lra.
  - exact Hr.
  - lia.
  - simpl. lia.
Defined.

(** C29 (finding). The de-duplication looks only at the newest row of
    the events table, not at the previous decision: when the newest event
    already carries the message, a completed tick adds no event, however
    many NORMAL ticks came in between.  A second WARNING episode with the
    same threshold, or a second overheat at the same temperature, is not
    recorded. *)
Theorem newest_message_suppresses s i d effs s' es id row :
  db_wf (dbf s) -> events (dbf s) = Some (es ++ [(id, row)]) ->
  reason_eqb (er_message row) (reason d) = true ->
  tick s i = TickDone d effs s' -> events (dbf s') = events (dbf s).
Proof.
  intros Hwf E Hm Ht.
  destruct (tick_done_inv _ _ _ _ _ Ht) as (data & h1 & t & v & c & db1 & _ & _ & _ & _ & _ & _ & Hl & Hd).
  pose proof (log_data_events _ _ _ _ _ _ Hl) as He1. rewrite <- He1.
  pose proof (log_data_wf _ _ _ _ _ _ Hwf Hl) as Hwf1. rewrite E in He1.
  unfold log_decision in Hd. rewrite (recent_one _ _ Hwf1 He1), last_snoc, Hm in Hd.
  destruct (status d); injection Hd as <-; reflexivity.
Qed.

(** A deviation to 50 (WARNING, logged), a return to 40 (NORMAL), and a
    second deviation to 50: the events table still holds one row. *)
Definition demo_episode_session : session :=
  snd (fst (run_loop demo_session [demo_json 50; demo_json 40])).

Lemma newest_message_suppresses_witness :
  match tick demo_episode_session (demo_json 50), events (dbf demo_episode_session) with
  | TickDone d effs s', Some [(id, row)] =>
      status d = WARNING /\ events (dbf s') = Some [(id, row)]
  | _, _ => False
  end.
Proof.
  destruct (tick demo_episode_session (demo_json 50)) as [d effs s'|e effs s'] eqn:Ht;
    [| vm_compute in Ht; discriminate Ht].
  destruct (events (dbf demo_episode_session)) as [[|[id row] [|]]|] eqn:E;
    try (vm_compute in E; discriminate E).
  split; [vm_compute in Ht; injection Ht as <- _ _; reflexivity|].
  rewrite <- E. apply (newest_message_suppresses demo_episode_session (demo_json 50) d effs s' [] id row);
    [| exact E | | exact Ht].
  - apply (session_reachable_inv empty_db true); [exact empty_db_inv|].
    apply (run_loop_reachable _ _ demo_session [demo_json 50; demo_json 40]
             (fst (fst (run_loop demo_session [demo_json 50; demo_json 40])))
             demo_episode_session demo_session_reachable).
    + vm_compute. reflexivity.
    + repeat constructor; unfold noise_ok, demo_json; cbn [ti_noise_t ti_noise_v]; lra.
    + vm_compute. reflexivity.
  - vm_compute in E. injection E as <- <-. vm_compute in Ht. injection Ht as <- _ _. reflexivity.
Defined.

(** C10 (liveness). After "Stop Overheat" on a monitoring session whose
    baseline is at least 41 (a calibration at the simulator's resting 45
    gives about 45), as long as no JSON line arrives, every tick from the
    64th on is back to "System Stable" with no command: the simulator
    settles in (44.2, 45.5), below the learned threshold and below
    [baseline + 5]. *)
Theorem cooldown_back_to_normal d0 opens s ins outs sf err k b :
  db_inv d0 -> session_reachable d0 opens s ->
  state (brain s) = MONITORING -> baseline_temp (brain s) = Fin b -> (41 <= b)%Q ->
  fault_active (hw s) = false ->
  Forall (fun i => no_json (ti_serial i) = true /\ noise_ok (ti_noise_t i) (ti_noise_v i)) ins ->
  run_loop s ins = (outs, sf, err) -> (63 <= k)%nat -> (k < length ins)%nat ->
  nth_error outs k = Some (default_result, []).
Proof.
  intros H0 Hr Hm Hbase Hb Hf Hall Hrun Hk Hlen.
  pose proof (session_reachable_inv _ _ _ H0 Hr) as Hinv.
  pose proof (hw_reachable_inv _ _ _ (proj2 (proj2 (proj2 (proj2 Hinv))))) as [HT _].
  destruct (monitoring_params s Hinv Hm) as [Hh Hthr].
  destruct (loop_simulated ins s outs sf err k Hinv Hm Hall Hrun Hlen)
    as (d & effs & i & hist & sk & sk' & Hn & Hi & Htk & Hd).
  pose proof (tick_effects _ _ _ _ _ Htk) as Ha.
  pose proof (cooled_below_46 _ (ti_noise_v i) k (sim_temp (hw s)) HT
                (proj2 (Forall_nth_error _ _ _ _ Hall Hi)) Hk) as Hq.
  rewrite Hf in Hd. rewrite Hthr, Hh, Hbase in Hd.
  rewrite classify_default in Hd; unfold fgt, TREND_MARGIN, THRESHOLD_FACTOR; cbn [fadd fscale];
    try (apply Qltb_false; lra).
  subst d. simpl in Ha. apply map_eq_nil in Ha. now subst effs.
Qed.

(** Calibrated at 45, overheated for 40 ticks, then stopped. *)
Definition demo45_session : session :=
  snd (fst (run_loop demo_start (repeat (demo_json 45) 20))).

Definition demo_cooling_session : session :=
  press_inject (snd (fst (run_loop (press_inject demo45_session) (repeat demo_idle 40)))).

Lemma idle_inputs_ok n :
  Forall (fun i => no_json (ti_serial i) = true /\ noise_ok (ti_noise_t i) (ti_noise_v i))
         (repeat demo_idle n).
Proof.
  apply List.Forall_forall. intros i Hi. apply repeat_spec in Hi. subst i.
  split; [reflexivity|]. unfold noise_ok, demo_idle; cbn [ti_noise_t ti_noise_v]. repeat split; lra.
Qed.

Lemma demo_cooling_reachable : session_reachable empty_db true demo_cooling_session.
Proof.
  assert (H45 : session_reachable empty_db true demo45_session).
  { apply (run_loop_reachable _ _ demo_start (repeat (demo_json 45) 20)
             (fst (fst (run_loop demo_start (repeat (demo_json 45) 20)))) demo45_session
             demo_start_reachable eq_refl).
    - apply List.Forall_forall. intros i Hi. apply repeat_spec in Hi. subst i.
      unfold noise_ok, demo_json; cbn [ti_noise_t ti_noise_v]; repeat split; lra.
    - vm_compute. reflexivity. }
  eapply sr_step; [|apply ss_inject].
  set (s1 := press_inject demo45_session).
  apply (run_loop_reachable _ _ s1 (repeat demo_idle 40) (fst (fst (run_loop s1 (repeat demo_idle 40))))).
  - eapply sr_step; [exact H45 | apply ss_inject].
  - vm_compute. reflexivity.
  - eapply List.Forall_impl; [|apply idle_inputs_ok]. intros i [_ Hn]. exact Hn.
  - vm_compute. reflexivity.
Qed.

Lemma cooldown_back_to_normal_witness :
  let r := run_loop demo_cooling_session (repeat demo_idle 64) in
  nth_error (fst (fst r)) 63 = Some (default_result, []).
Proof.
  intros r. destruct r as [[outs sf] err] eqn:Hr.
  apply (cooldown_back_to_normal empty_db true demo_cooling_session (repeat demo_idle 64) outs sf err 63 (900 # 20)
           empty_db_inv demo_cooling_reachable).
  - vm_compute. reflexivity.
  - vm_compute. reflexivity.
  - lra.
  - vm_compute. reflexivity.
  - apply idle_inputs_ok.
  - exact Hr.
  - lia.
  - simpl. lia.
Defined.

End ControlLoop.
